(** * TodoMVC (Backbone, ES6): a shallow embedding of [js/todo-app.js]

    The program is a Backbone application: a [Todo] model, a [TodoList]
    collection kept in [localStorage], a [TodoFilter] holder, one [TodoView]
    per item, one [AppView], and the [Filters] router.

    Model objects are shared and mutated in place (a view, the collection and
    the array returned by [completed()] all alias the same [Todo]), so the
    embedding keeps a heap of model objects addressed by reference and the
    collection as a sequence of references.  Every method of the source is a
    function on the application state, named as in the source. *)

From Stdlib Require Import ZArith String Ascii Sorted Permutation Lia.
From stdpp Require Import base list strings gmap functions.

Local Open Scope string_scope.
Local Open Scope list_scope.

(** ** JavaScript primitives used by the program *)

Module JS.

(** Code units that [String.prototype.trim] strips (WhiteSpace and
    LineTerminator of ECMAScript), for the code units a Rocq [ascii] can
    hold: TAB, LF, VT, FF, CR, SP and NBSP. *)
Definition isWhiteSpace (c : ascii) : bool :=
  let n := N_of_ascii c in
  ((n =? 9) || (n =? 10) || (n =? 11) || (n =? 12) || (n =? 13)
   || (n =? 32) || (n =? 160))%N.

Fixpoint trimStart (s : string) : string :=
  match s with
  | EmptyString => EmptyString
  | String c s' => if isWhiteSpace c then trimStart s' else s
  end.

Fixpoint trimEnd (s : string) : string :=
  match s with
  | EmptyString => EmptyString
  | String c s' =>
      match trimEnd s' with
      | EmptyString => if isWhiteSpace c then EmptyString else String c EmptyString
      | r => String c r
      end
  end.

(** [s.trim()] *)
Definition trim (s : string) : string := trimEnd (trimStart s).

(** Truthiness of a string value: every string but [''] is truthy. *)
Definition truthy (s : string) : bool :=
  match s with
  | EmptyString => false
  | String _ _ => true
  end.

(** What [TodoFilter.value] can hold: a string, or [null], which is what
    Backbone's router hands to a route handler for an empty ['*filter']
    part. *)
Inductive value : Type :=
| Null
| Str (s : string).

(** [v === 'literal'] *)
Definition strict_eq (v : value) (literal : string) : bool :=
  match v with
  | Null => false
  | Str s => String.eqb s literal
  end.

(** [v || ''] *)
Definition or_empty (v : value) : string :=
  match v with
  | Null => ""
  | Str s => s
  end.

End JS.

(** ** Data model *)

(** The attribute hash of a [Todo] model.  [defaults()] gives no [order];
    every model the program builds gets one from [newAttributes()].  Orders
    are the integers 1, 2, ... that [nextOrder()] counts, taken in [Z]. *)
Record Attributes : Type := mkAttributes {
  title : string;
  completed : bool;
  order : Z
}.

(** An object literal passed to [new Todo(..)], [create(..)] or [save(..)]:
    each key may be absent. *)
Record Attrs : Type := mkAttrs {
  attr_title : option string;
  attr_completed : option bool;
  attr_order : option Z
}.

(** A reference to a [Todo] object (Backbone's [cid]). *)
Abbreviation cid := positive (only parsing).

(** The application state: the heap of [Todo] objects, the collection
    [todos.models], the records kept in [localStorage] under the
    ['todos-traceur-backbone'] namespace, [TodoFilter.value], and the value
    of the [#new-todo] input field.  References are handed out in sequence
    from [next_cid]; a heap cell at or above it holds no model yet and is
    never read. *)
Record App : Type := mkApp {
  objs : cid -> Attributes;
  next_cid : cid;
  models : list cid;
  localStorage : gmap positive Attributes;
  filter_value : JS.value;
  new_todo : string
}.

(** ** Backbone and Underscore, as the program uses them *)

Module Underscore.

(** [_.defaults({}, attrs, dflt)] on attribute hashes: a key of [attrs]
    wins, an absent key is filled in from [dflt]. *)
Definition defaults (attrs dflt : Attrs) : Attrs :=
  {| attr_title :=
       match attr_title attrs with Some x => Some x | None => attr_title dflt end;
     attr_completed :=
       match attr_completed attrs with Some x => Some x | None => attr_completed dflt end;
     attr_order :=
       match attr_order attrs with Some x => Some x | None => attr_order dflt end |}.

(** [_.without(array, ...values)]: the elements of [array] that are not
    identical ([===]) to any of [values]. *)
Definition without (array values : list cid) : list cid :=
  List.filter (fun x => negb (existsb (Pos.eqb x) values)) array.

(** [_.sortBy(list, iteratee)]: a stable sort by ascending key. *)
Fixpoint insertBy {A : Type} (key : A -> Z) (x : A) (l : list A) : list A :=
  match l with
  | [] => [x]
  | y :: l' => if (key x <=? key y)%Z then x :: l else y :: insertBy key x l'
  end.

Fixpoint sortBy {A : Type} (key : A -> Z) (l : list A) : list A :=
  match l with
  | [] => []
  | x :: l' => insertBy key x (sortBy key l')
  end.

End Underscore.

Module Model.

(** [model.get(attr)] *)
Definition get {A : Type} (attr : Attributes -> A) (m : cid) (s : App) : A :=
  attr (objs s m).

(** [model.set(attrs)] on the attribute hash: present keys overwrite. *)
Definition set (a : Attributes) (attrs : Attrs) : Attributes :=
  {| title := default (title a) (attr_title attrs);
     completed := default (completed a) (attr_completed attrs);
     order := default (order a) (attr_order attrs) |}.

(** [model.save(attrs)]: set the attributes, then write the record to
    [localStorage] (the adapter is synchronous). *)
Definition save (m : cid) (attrs : Attrs) (s : App) : App :=
  let a := set (objs s m) attrs in
  {| objs := <[m := a]> (objs s);
     next_cid := next_cid s;
     models := models s;
     localStorage := <[m := a]> (localStorage s);
     filter_value := filter_value s;
     new_todo := new_todo s |}.

(** [model.destroy()]: delete the record from [localStorage]; the
    ['destroy'] event makes the collection remove the model.  A collection
    holds a model once, so dropping the reference drops that occurrence. *)
Definition destroy (m : cid) (s : App) : App :=
  {| objs := objs s;
     next_cid := next_cid s;
     models := List.filter (fun x => negb (Pos.eqb x m)) (models s);
     localStorage := delete m (localStorage s);
     filter_value := filter_value s;
     new_todo := new_todo s |}.

End Model.

(** ** [class Todo extends Model] *)

Module Todo.

(** [defaults() { return { title: '', completed: false }; }] *)
Definition defaults : Attrs :=
  {| attr_title := Some ""; attr_completed := Some false; attr_order := None |}.

(** [new Todo(attrs)]: the attribute hash is [attrs] completed by
    [defaults()].  The typed hash exists when an order was supplied, as
    [newAttributes()] always does. *)
Definition attributes (attrs : Attrs) : Attrs :=
  Underscore.defaults attrs defaults.

Definition new (attrs : Attrs) : option Attributes :=
  let h := attributes attrs in
  match attr_title h, attr_completed h, attr_order h with
  | Some t, Some c, Some o => Some {| title := t; completed := c; order := o |}
  | _, _, _ => None
  end.

(** [toggle() { this.save({ completed: !this.get('completed') }); }] *)
Definition toggle (this : cid) (s : App) : App :=
  Model.save this
    {| attr_title := None;
       attr_completed := Some (negb (Model.get completed this s));
       attr_order := None |} s.

End Todo.

(** ** [class TodoList extends Collection] *)

Module TodoList.

(** [this.length] *)
Definition length (s : App) : nat := List.length (models s).

(** [completed() { return this.filter(todo => todo.get('completed')); }] *)
Definition completed (s : App) : list cid :=
  List.filter (fun todo => Model.get completed todo s) (models s).

(** [remaining() { return this.without(...this.completed()); }] *)
Definition remaining (s : App) : list cid :=
  Underscore.without (models s) (completed s).

(** [nextOrder()]: 1 for the empty collection, else the order of
    [this.last()] plus one. *)
Definition nextOrder (s : App) : Z :=
  match models s with
  | [] => 1
  | m :: ms => (Model.get order (List.last ms m) s + 1)%Z
  end.

(** [comparator(todo) { return todo.get('order'); }] *)
Definition comparator (s : App) (todo : cid) : Z := Model.get order todo s.

(** [this.create(attrs)]: build the model, add it to the collection (which
    sorts by [comparator]) and save it. *)
Definition create (attrs : Attrs) (s : App) : App :=
  match Todo.new attrs with
  | None => s
  | Some a =>
      let m := next_cid s in
      let heap := <[m := a]> (objs s) in
      {| objs := heap;
         next_cid := Pos.succ m;
         models := Underscore.sortBy (fun todo => order (heap todo)) (models s ++ [m]);
         localStorage := <[m := a]> (localStorage s);
         filter_value := filter_value s;
         new_todo := new_todo s |}
  end.

End TodoList.

(** ** [class TodoFilter] *)

Module TodoFilter.

(** [constructor() { this.value = ''; }] *)
Definition constructor : JS.value := JS.Str "".

End TodoFilter.

Definition ENTER_KEY : Z := 13.

(** ** [class TodoView extends View] *)

Module TodoView.

(** The state of one item view: [this.model], the value of its [.edit]
    field ([this.input.val()]) and whether its element carries the
    ['editing'] class. *)
Record t : Type := mk {
  model : cid;
  input : string;
  editing : bool
}.

(** [get isHidden()] *)
Definition isHidden (this : t) (s : App) : bool :=
  let isCompleted := Model.get completed (model this) s in
  (negb isCompleted && JS.strict_eq (filter_value s) "completed")
  || (isCompleted && JS.strict_eq (filter_value s) "active").

(** [toggleCompleted() { this.model.toggle(); }] *)
Definition toggleCompleted (this : t) (s : App) : App :=
  Todo.toggle (model this) s.

(** [edit()]: add the ['editing'] class; the field keeps its value. *)
Definition edit (this : t) : t :=
  let value := input this in
  {| model := model this; input := value; editing := true |}.

(** [clear() { this.model.destroy(); }] *)
Definition clear (this : t) (s : App) : App :=
  Model.destroy (model this) s.

(** [close()]: save the field's value as the title when it is truthy,
    else clear the item; then leave editing mode. *)
Definition close (this : t) (s : App) : t * App :=
  let title := input this in
  let s' :=
    if JS.truthy title
    then Model.save (model this)
           {| attr_title := Some title; attr_completed := None; attr_order := None |} s
    else clear this s in
  ({| model := model this; input := input this; editing := false |}, s').

(** [updateOnEnter(e) { if (e.which === ENTER_KEY) { this.close(); } }] *)
Definition updateOnEnter (which : Z) (this : t) (s : App) : t * App :=
  if (which =? ENTER_KEY)%Z then close this s else (this, s).

End TodoView.

(** ** [class AppView extends View] *)

Module AppView.

(** [newAttributes()] *)
Definition newAttributes (s : App) : Attrs :=
  {| attr_title := Some (JS.trim (new_todo s));
     attr_order := Some (TodoList.nextOrder s);
     attr_completed := Some false |}.

(** [this.$input.val(v)] *)
Definition set_input (v : string) (s : App) : App :=
  {| objs := objs s;
     next_cid := next_cid s;
     models := models s;
     localStorage := localStorage s;
     filter_value := filter_value s;
     new_todo := v |}.

(** [createOnEnter(e)] *)
Definition createOnEnter (which : Z) (s : App) : App :=
  if negb (which =? ENTER_KEY)%Z || negb (JS.truthy (JS.trim (new_todo s)))
  then s
  else set_input "" (TodoList.create (newAttributes s) s).

(** [clearCompleted() { _.invoke(this.todos.completed(), 'destroy'); }]:
    [completed()] is evaluated once, then each of its models is
    destroyed in turn. *)
Definition clearCompleted (s : App) : App :=
  fold_left (fun st todo => Model.destroy todo st) (TodoList.completed s) s.

(** [toggleAllComplete()]: [checked] is [this.allCheckbox.checked], read
    when the handler starts. *)
Definition toggleAllComplete (checked : bool) (s : App) : App :=
  fold_left
    (fun st todo =>
       Model.save todo
         {| attr_title := None; attr_completed := Some checked; attr_order := None |} st)
    (models s) s.

End AppView.

(** ** [class Filters extends Router] *)

Module Filters.

(** [filter(param = '') { this.todoFilter.value = param; ... }]:
    [None] is [undefined] (a call without argument), the one case the
    default replaces; [null] and every string are stored as they come. *)
Definition filter (param : option JS.value) (s : App) : App :=
  {| objs := objs s;
     next_cid := next_cid s;
     models := models s;
     localStorage := localStorage s;
     filter_value := default (JS.Str "") param;
     new_todo := new_todo s |}.

End Filters.

(** ** The application as a state machine *)

(** The state after start-up on an empty [localStorage]: no model, the
    filter as [TodoFilter]'s constructor leaves it, an empty input field. *)
Definition init : App :=
  {| objs := fun _ => {| title := ""; completed := false; order := 0 |};
     next_cid := 1%positive;
     models := [];
     localStorage := ∅;
     filter_value := TodoFilter.constructor;
     new_todo := "" |}.

(** What can happen to the running application: the DOM events the two
    views delegate, typing into [#new-todo], and a route change.  A route
    change carries the parameter Backbone's router hands to the handler
    of the ['*filter'] route: the decoded part of the fragment the splat
    matched, or [null] when that part is empty. *)
Inductive Event : Type :=
| TypeNewTodo (text : string)
| KeypressNewTodo (which : Z)
| ClickClearCompleted
| ClickToggleAll (checked : bool)
| ClickToggle (v : TodoView.t)
| DblclickLabel (v : TodoView.t)
| ClickDestroy (v : TodoView.t)
| KeypressEdit (v : TodoView.t) (which : Z)
| BlurEdit (v : TodoView.t)
| Route (param : JS.value).

(** A view is removed when its model is destroyed, so an item event only
    arrives for a model still in the collection. *)
Definition live (v : TodoView.t) (s : App) : bool :=
  existsb (Pos.eqb (TodoView.model v)) (models s).

Definition handle (e : Event) (s : App) : App :=
  match e with
  | TypeNewTodo text => AppView.set_input text s
  | KeypressNewTodo which => AppView.createOnEnter which s
  | ClickClearCompleted => AppView.clearCompleted s
  | ClickToggleAll checked => AppView.toggleAllComplete checked s
  | ClickToggle v => if live v s then TodoView.toggleCompleted v s else s
  | DblclickLabel v => s
  | ClickDestroy v => if live v s then TodoView.clear v s else s
  | KeypressEdit v which => if live v s then snd (TodoView.updateOnEnter which v s) else s
  | BlurEdit v => if live v s then snd (TodoView.close v s) else s
  | Route param => Filters.filter (Some param) s
  end.

Definition run (events : list Event) (s : App) : App :=
  fold_left (fun st e => handle e st) events s.

(** ** Loading the saved items *)

Module Collection.

(** The references of [n] models made in a row, the first being [from]. *)
Fixpoint fresh_cids (from : cid) (n : nat) : list cid :=
  match n with
  | O => []
  | S n' => from :: fresh_cids (Pos.succ from) n'
  end.

(** One saved record becomes a model of the collection.  The record is
    kept under the reference of its model. *)
Definition load (record : Attributes) (s : App) : App :=
  let m := next_cid s in
  {| objs := <[m := record]> (objs s);
     next_cid := Pos.succ m;
     models := models s ++ [m];
     localStorage := <[m := record]> (localStorage s);
     filter_value := filter_value s;
     new_todo := new_todo s |}.

(** [this.todos.fetch()]: a model for each record of [localStorage], in
    the order the records are kept in, and the collection sorted by its
    comparator. *)
Definition fetch (saved : list Attributes) (s : App) : App :=
  let s1 := fold_left (fun st record => load record st) saved s in
  {| objs := objs s1;
     next_cid := next_cid s1;
     models := Underscore.sortBy (fun todo => order (objs s1 todo)) (models s1);
     localStorage := localStorage s1;
     filter_value := filter_value s1;
     new_todo := new_todo s1 |}.

End Collection.

(** ** What the views put on the page *)

(** The [<li>] element of an item view: what the item template was last
    given ([None] for an element not rendered yet), and whether the
    element carries the ['completed'] and ['hidden'] classes. *)
Record Li : Type := mkLi {
  html : option Attributes;
  class_completed : bool;
  class_hidden : bool
}.

(** The page: the children of [#todo-list], each with the model of the
    view it belongs to; whether [#main] and [#footer] are shown; what the
    stats template was last given ([completed], [remaining]); the [href]
    by which [render()] last picked the filter links that get the
    ['selected'] class; and the checked state [render()] last gave
    [#toggle-all]. *)
Record Page : Type := mkPage {
  todo_list : list (positive * Li);
  main_shown : bool;
  footer_shown : bool;
  footer_html : option (nat * nat);
  selected : option string;
  allCheckbox_checked : bool
}.

Definition set_todo_list (l : list (positive * Li)) (p : Page) : Page :=
  {| todo_list := l;
     main_shown := main_shown p;
     footer_shown := footer_shown p;
     footer_html := footer_html p;
     selected := selected p;
     allCheckbox_checked := allCheckbox_checked p |}.

(** Apply [f] to the element of the view of model [m]. *)
Definition on_view (m : cid) (f : Li -> Li) (p : Page) : Page :=
  set_todo_list
    (List.map (fun row => if Pos.eqb (fst row) m then (fst row, f (snd row)) else row)
       (todo_list p))
    p.

Module TodoViewPage.

(** The view [createTodoView('options', { model })] builds:
    [this.input = ''], not editing. *)
Definition constructor (m : cid) : TodoView.t :=
  {| TodoView.model := m; TodoView.input := ""; TodoView.editing := false |}.

(** The element of a view that has not rendered yet. *)
Definition el : Li :=
  {| html := None; class_completed := false; class_hidden := false |}.

(** [toggleVisible() { this.$el.toggleClass('hidden', this.isHidden); }] *)
Definition toggleVisible (this : TodoView.t) (s : App) (li : Li) : Li :=
  {| html := html li;
     class_completed := class_completed li;
     class_hidden := TodoView.isHidden this s |}.

(** [render()]: fill the element from the template, set the
    ['completed'] class from the model, then [toggleVisible()]. *)
Definition render (this : TodoView.t) (s : App) (li : Li) : Li :=
  toggleVisible this s
    {| html := Some (objs s (TodoView.model this));
       class_completed := Model.get completed (TodoView.model this) s;
       class_hidden := class_hidden li |}.

(** [remove()] (of Backbone's [View]): take the element off the page. *)
Definition remove (this : TodoView.t) (p : Page) : Page :=
  set_todo_list
    (List.filter (fun row => negb (Pos.eqb (fst row) (TodoView.model this)))
       (todo_list p))
    p.

End TodoViewPage.

Module AppViewPage.

(** [render()]: the statistics.  [!remaining] is true for 0 only. *)
Definition render (s : App) (p : Page) : Page :=
  let completed := List.length (TodoList.completed s) in
  let remaining := List.length (TodoList.remaining s) in
  if negb (TodoList.length s =? 0)%nat
  then {| todo_list := todo_list p;
          main_shown := true;
          footer_shown := true;
          footer_html := Some (completed, remaining);
          selected := Some (String.append "#/" (JS.or_empty (filter_value s)));
          allCheckbox_checked := (remaining =? 0)%nat |}
  else {| todo_list := todo_list p;
          main_shown := false;
          footer_shown := false;
          footer_html := footer_html p;
          selected := selected p;
          allCheckbox_checked := (remaining =? 0)%nat |}.

(** [addOne(model)]: a new view, rendered, appended to [#todo-list]. *)
Definition addOne (model : cid) (s : App) (p : Page) : Page :=
  let view := TodoViewPage.constructor model in
  set_todo_list
    (todo_list p ++ [(model, TodoViewPage.render view s TodoViewPage.el)]) p.

(** [addAll()]: empty [#todo-list], then [addOne] for each model. *)
Definition addAll (s : App) (p : Page) : Page :=
  fold_left (fun page model => addOne model s page) (models s) (set_todo_list [] p).

(** [filterOne(todo) { todo.trigger('visible'); }]: the view of [todo]
    listens and runs [toggleVisible]. *)
Definition filterOne (todo : cid) (s : App) (p : Page) : Page :=
  on_view todo (TodoViewPage.toggleVisible (TodoViewPage.constructor todo) s) p.

(** [filterAll() { this.todos.each(this.filterOne, this); }] *)
Definition filterAll (s : App) (p : Page) : Page :=
  fold_left (fun page todo => filterOne todo s page) (models s) p.

End AppViewPage.

(** ** The handlers with their listeners *)

(** The Backbone events the program listens to.  A model event reaches
    the listeners of [todos] while the model is in the collection;
    [in_collection] says whether it was when it was destroyed. *)
Inductive Trigger : Type :=
| Add (m : cid)
| ChangeCompleted (m : cid)
| ChangeOther (m : cid)
| Change (m : cid)
| Destroy (m : cid) (in_collection : bool)
| FilterEvent
| Reset.

(** The listeners the two constructors register:
    a view re-renders on ['change'] of its model and is removed on
    ['destroy']; [AppView] runs [addOne] on ['add'], [addAll] on
    ['reset'], [filterOne] on ['change:completed'], [filterAll] on
    ['filter'], and [render] on every event of [todos]. *)
Definition listeners (ev : Trigger) (s : App) (p : Page) : Page :=
  match ev with
  | Add m => AppViewPage.render s (AppViewPage.addOne m s p)
  | ChangeCompleted m =>
      if existsb (Pos.eqb m) (models s)
      then AppViewPage.render s (AppViewPage.filterOne m s p)
      else p
  | ChangeOther m =>
      if existsb (Pos.eqb m) (models s) then AppViewPage.render s p else p
  | Change m =>
      let p' :=
        on_view m (TodoViewPage.render (TodoViewPage.constructor m) s) p in
      if existsb (Pos.eqb m) (models s) then AppViewPage.render s p' else p'
  | Destroy m in_collection =>
      let p' := TodoViewPage.remove (TodoViewPage.constructor m) p in
      if in_collection then AppViewPage.render s p' else p'
  | FilterEvent => AppViewPage.render s (AppViewPage.filterAll s p)
  | Reset => AppViewPage.render s (AppViewPage.addAll s p)
  end.

Definition fire (evs : list Trigger) (s : App) (p : Page) : Page :=
  fold_left (fun page ev => listeners ev s page) evs p.

Module Wired.

(** Whether [set] changes an attribute: the key is given and its value
    differs from the current one. *)
Definition changes {A : Type} (eqb : A -> A -> bool) (new : option A) (old : A) : bool :=
  match new with
  | Some x => negb (eqb x old)
  | None => false
  end.

(** The events of [model.save(attrs)]: a ['change:attr'] for each
    attribute that changes, then one ['change'] if any did. *)
Definition save_events (m : cid) (attrs : Attrs) (s : App) : list Trigger :=
  let a := objs s m in
  let t := changes String.eqb (attr_title attrs) (title a) in
  let c := changes Bool.eqb (attr_completed attrs) (completed a) in
  let o := changes Z.eqb (attr_order attrs) (order a) in
  (if t then [ChangeOther m] else [])
  ++ (if c then [ChangeCompleted m] else [])
  ++ (if o then [ChangeOther m] else [])
  ++ (if t || c || o then [Change m] else []).

Definition save (m : cid) (attrs : Attrs) (sp : App * Page) : App * Page :=
  let s' := Model.save m attrs (fst sp) in
  (s', fire (save_events m attrs (fst sp)) s' (snd sp)).

Definition destroy (m : cid) (sp : App * Page) : App * Page :=
  let s' := Model.destroy m (fst sp) in
  (s', fire [Destroy m (existsb (Pos.eqb m) (models (fst sp)))] s' (snd sp)).

Definition create (attrs : Attrs) (sp : App * Page) : App * Page :=
  match Todo.new attrs with
  | None => sp
  | Some _ =>
      let s' := TodoList.create attrs (fst sp) in
      (s', fire [Add (next_cid (fst sp))] s' (snd sp))
  end.

(** [Todo.toggle] *)
Definition toggle (this : cid) (sp : App * Page) : App * Page :=
  save this
    {| attr_title := None;
       attr_completed := Some (negb (Model.get completed this (fst sp)));
       attr_order := None |} sp.

(** [TodoView.close], the store and the page *)
Definition close (this : TodoView.t) (sp : App * Page) : App * Page :=
  let title := TodoView.input this in
  if JS.truthy title
  then save (TodoView.model this)
         {| attr_title := Some title; attr_completed := None; attr_order := None |} sp
  else destroy (TodoView.model this) sp.

(** [AppView.createOnEnter] *)
Definition createOnEnter (which : Z) (sp : App * Page) : App * Page :=
  if negb (which =? ENTER_KEY)%Z || negb (JS.truthy (JS.trim (new_todo (fst sp))))
  then sp
  else
    let sp' := create (AppView.newAttributes (fst sp)) sp in
    (AppView.set_input "" (fst sp'), snd sp').

(** [AppView.clearCompleted] *)
Definition clearCompleted (sp : App * Page) : App * Page :=
  fold_left (fun st todo => destroy todo st) (TodoList.completed (fst sp)) sp.

(** [AppView.toggleAllComplete] *)
Definition toggleAllComplete (checked : bool) (sp : App * Page) : App * Page :=
  fold_left
    (fun st todo =>
       save todo
         {| attr_title := None; attr_completed := Some checked; attr_order := None |} st)
    (models (fst sp)) sp.

(** [Filters.filter]: set the value, then [this.todos.trigger('filter')]. *)
Definition filter (param : option JS.value) (sp : App * Page) : App * Page :=
  let s' := Filters.filter param (fst sp) in
  (s', fire [FilterEvent] s' (snd sp)).

(** [this.todos.fetch()] with its events.  Backbone announces the loaded
    models either by one ['reset'] or by one ['add'] for each, in the
    order of the records, once all of them are in the sorted collection;
    [reset] says which. *)
Definition fetch (reset : bool) (saved : list Attributes) (sp : App * Page)
  : App * Page :=
  let s' := Collection.fetch saved (fst sp) in
  let added := Collection.fresh_cids (next_cid (fst sp)) (List.length saved) in
  (s', fire (if reset then [Reset] else List.map Add added) s' (snd sp)).

Definition handle (e : Event) (sp : App * Page) : App * Page :=
  match e with
  | TypeNewTodo text => (AppView.set_input text (fst sp), snd sp)
  | KeypressNewTodo which => createOnEnter which sp
  | ClickClearCompleted => clearCompleted sp
  | ClickToggleAll checked => toggleAllComplete checked sp
  | ClickToggle v => if live v (fst sp) then toggle (TodoView.model v) sp else sp
  | DblclickLabel v => sp
  | ClickDestroy v => if live v (fst sp) then destroy (TodoView.model v) sp else sp
  | KeypressEdit v which =>
      if live v (fst sp)
      then if (which =? ENTER_KEY)%Z then close v sp else sp
      else sp
  | BlurEdit v => if live v (fst sp) then close v sp else sp
  | Route param => filter (Some param) sp
  end.

Definition run (events : list Event) (sp : App * Page) : App * Page :=
  fold_left (fun st e => handle e st) events sp.

(** A page on which nothing was rendered yet. *)
Definition blank : Page :=
  {| todo_list := [];
     main_shown := false;
     footer_shown := false;
     footer_html := None;
     selected := None;
     allCheckbox_checked := false |}.

(** Start-up: [AppView] is built, which registers its listeners and
    fetches the saved items; [Filters] is built; then
    [Backbone.history.start()] routes the fragment of the URL. *)
Definition boot (reset : bool) (saved : list Attributes) (param : JS.value)
  : App * Page :=
  filter (Some param) (fetch reset saved (init, blank)).

End Wired.

(** ** Specification vocabulary *)

(** The order values of the collection, in collection order. *)
Definition orders (s : App) : list Z :=
  List.map (fun m => order (objs s m)) (models s).

(** The largest order in the collection, if there is an item. *)
Definition maxOrder (s : App) : option Z :=
  match orders s with
  | [] => None
  | o :: os => Some (fold_right Z.max o os)
  end.

(** The three filter keywords of the specification. *)
Definition filter_keyword (f : JS.value) : Prop :=
  f = JS.Str "" \/ f = JS.Str "active" \/ f = JS.Str "completed".

(** References handed out so far are below [next_cid], and the collection
    holds each model once. *)
Definition well_formed (s : App) : Prop :=
  Forall (fun m => (m < next_cid s)%positive) (models s) /\ List.NoDup (models s).

(** Order values strictly increase along the collection. *)
Definition ordered (s : App) : Prop :=
  StronglySorted Z.lt (orders s).

(** [localStorage] holds exactly the records of the models of the
    collection, each as the model currently is. *)
Definition mirrored (s : App) : Prop :=
  forall m, localStorage s !! m
            = if existsb (Pos.eqb m) (models s) then Some (objs s m) else None.

(** An event routes a keyword when, being a route change, its parameter
    is one of the three keywords. *)
Definition routes_keyword (e : Event) : Prop :=
  match e with
  | Route param => filter_keyword param
  | _ => True
  end.

(** The parameter of the last route change among [events]; [current]
    when there was none. *)
Definition routed (events : list Event) (current : JS.value) : JS.value :=
  fold_left
    (fun value e => match e with Route param => param | _ => value end)
    events current.

(** ** Sample runs *)

(** Three items typed in one after the other. *)
Definition three_items : App :=
  run [TypeNewTodo "A"; KeypressNewTodo 13;
       TypeNewTodo "B"; KeypressNewTodo 13;
       TypeNewTodo "C"; KeypressNewTodo 13] init.

(** The same store once the first two items are completed. *)
Definition two_completed : App :=
  run [ClickToggle (TodoView.mk 1 "A" false);
       ClickToggle (TodoView.mk 2 "B" false)] three_items.

(** The view of the first item of [three_items], in editing mode with a
    single space typed into its field. *)
Definition blank_edit : TodoView.t :=
  {| TodoView.model := 1; TodoView.input := " "; TodoView.editing := true |}.

(** ** More vocabulary *)

(** The attribute hashes of the collection, in collection order. *)
Definition items (s : App) : list Attributes :=
  List.map (fun m => objs s m) (models s).

(** The user types each text into the new-item field and presses Enter. *)
Definition type_and_enter (texts : list string) : list Event :=
  flat_map (fun text => [TypeNewTodo text; KeypressNewTodo ENTER_KEY]) texts.

(** Open items with the given titles, numbered [from], [from + 1], ... *)
Fixpoint numbered (from : Z) (new_titles : list string) : list Attributes :=
  match new_titles with
  | [] => []
  | t :: ts =>
      {| title := t; completed := false; order := from |} :: numbered (from + 1) ts
  end.

(** No item of the collection has the empty title. *)
Definition titled (s : App) : Prop :=
  Forall (fun m => title (objs s m) <> "") (models s).

(** The element a view shows once it has rendered model [m]. *)
Definition li_of (s : App) (m : cid) : Li :=
  TodoViewPage.render (TodoViewPage.constructor m) s TodoViewPage.el.

(** [#todo-list] holds one element per model of the collection, in
    collection order, each as a fresh render would make it. *)
Definition listed (s : App) (p : Page) : Prop :=
  todo_list p = List.map (fun m => (m, li_of s m)) (models s).

(** The statistics are up to date: rendering again changes nothing. *)
Definition rendered (s : App) (p : Page) : Prop :=
  AppViewPage.render s p = p.

(** The models whose element does not carry the ['hidden'] class. *)
Definition shown (p : Page) : list cid :=
  List.map fst (List.filter (fun row => negb (class_hidden (snd row))) (todo_list p)).

(** The page shows the store: the list and the statistics. *)
Definition synced (sp : App * Page) : Prop :=
  listed (fst sp) (snd sp) /\ rendered (fst sp) (snd sp).

(** What [on_view] does to one row. *)
Definition on_row (m : cid) (f : Li -> Li) (row : positive * Li) : positive * Li :=
  if Pos.eqb (fst row) m then (fst row, f (snd row)) else row.

(** ** Facts about the primitives *)

Lemma existsb_eqb_In (x : positive) (l : list positive) :
  existsb (Pos.eqb x) l = true <-> In x l.
Proof.
  rewrite existsb_exists. split.
  - intros (y & Hy & Heq). apply Pos.eqb_eq in Heq. now subst.
  - intros Hx. exists x. split; [assumption | apply Pos.eqb_refl].
Qed.

(** [without] applied to a filtered copy of the same array keeps exactly
    the elements the filter rejected. *)
Lemma without_filter (p : positive -> bool) (l : list positive) :
  Underscore.without l (List.filter p l) = List.filter (fun x => negb (p x)) l.
Proof.
  unfold Underscore.without. apply filter_ext_in. intros x Hx. f_equal.
  destruct (p x) eqn:Hp.
  - apply existsb_eqb_In, filter_In. now split.
  - apply not_true_is_false. intros Hex.
    apply existsb_eqb_In, filter_In in Hex. destruct Hex as [_ Hex]. congruence.
Qed.

Lemma filter_length_split {A : Type} (p : A -> bool) (l : list A) :
  (List.length (List.filter p l)
   + List.length (List.filter (fun x => negb (p x)) l) = List.length l)%nat.
Proof.
  induction l as [| x l IH]; simpl; [reflexivity |].
  destruct (p x); simpl; lia.
Qed.

(** ** The completed / remaining partition *)

(** C4. For every store, [completed()] is exactly the items whose
    [completed] attribute is true and [remaining()] exactly those where it
    is false; no item is in both, every item of the store is in one of
    them, and their lengths add up to the length of the store. *)
Theorem completed_remaining_partition (s : App) :
  TodoList.completed s = List.filter (fun m => completed (objs s m)) (models s)
  /\ TodoList.remaining s
     = List.filter (fun m => negb (completed (objs s m))) (models s)
  /\ (forall m, ~ (In m (TodoList.completed s) /\ In m (TodoList.remaining s)))
  /\ (forall m, In m (models s)
                <-> In m (TodoList.completed s) \/ In m (TodoList.remaining s))
  /\ (List.length (TodoList.completed s) + List.length (TodoList.remaining s)
      = TodoList.length s)%nat.
Proof.
  assert (Hrem : TodoList.remaining s
                 = List.filter (fun m => negb (completed (objs s m))) (models s)).
  { unfold TodoList.remaining, TodoList.completed, Model.get.
    apply without_filter. }
  split; [reflexivity |]. split; [exact Hrem |].
  rewrite Hrem. unfold TodoList.completed, TodoList.length, Model.get.
  repeat split.
  - intros m [Hc Hr]. apply filter_In in Hc, Hr.
    destruct Hc as [_ Hc], Hr as [_ Hr]. rewrite Hc in Hr. discriminate.
  - intros Hm. destruct (completed (objs s m)) eqn:Hc.
    + left. apply filter_In. now split.
    + right. apply filter_In. split; [assumption | now rewrite Hc].
  - intros [H | H]; apply filter_In in H; tauto.
  - apply filter_length_split.
Qed.

(** ** The [Todo] model *)

Lemma set_completed_only (a : Attributes) (b : bool) :
  Model.set a {| attr_title := None; attr_completed := Some b; attr_order := None |}
  = {| title := title a; completed := b; order := order a |}.
Proof. reflexivity. Qed.

Lemma save_objs_same (m : positive) (attrs : Attrs) (s : App) :
  objs (Model.save m attrs s) m = Model.set (objs s m) attrs.
Proof. unfold Model.save; simpl. apply fn_lookup_insert. Qed.

Lemma save_objs_other (m x : positive) (attrs : Attrs) (s : App) :
  m <> x -> objs (Model.save m attrs s) x = objs s x.
Proof. intros Hne. unfold Model.save; simpl. now apply fn_lookup_insert_ne. Qed.

(** C9. One [toggle()] sets [completed] to the negation of its current
    value and leaves title and order alone; two in a row give back every
    model object of the heap as it was, and the collection is the same. *)
Theorem toggle_involution (this : positive) (s : App) :
  completed (objs (Todo.toggle this s) this) = negb (completed (objs s this))
  /\ title (objs (Todo.toggle this s) this) = title (objs s this)
  /\ order (objs (Todo.toggle this s) this) = order (objs s this)
  /\ (forall m, objs (Todo.toggle this (Todo.toggle this s)) m = objs s m)
  /\ models (Todo.toggle this (Todo.toggle this s)) = models s.
Proof.
  unfold Todo.toggle, Model.get.
  repeat split.
  - now rewrite save_objs_same.
  - now rewrite save_objs_same.
  - now rewrite save_objs_same.
  - intros m. destruct (Pos.eq_dec this m) as [<- | Hne].
    + rewrite !save_objs_same, !set_completed_only; simpl.
      rewrite negb_involutive. now destruct (objs s this).
    + now rewrite !save_objs_other.
Qed.

(** C10. A [Todo] constructed from attributes without a title has the
    title [''], and one constructed without a completed flag has [false];
    an attribute that is given is kept, and no order is made up. *)
Theorem defaults_fill_missing (attrs : Attrs) :
  attr_title (Todo.attributes attrs) = Some (default "" (attr_title attrs))
  /\ attr_completed (Todo.attributes attrs)
     = Some (default false (attr_completed attrs))
  /\ attr_order (Todo.attributes attrs) = attr_order attrs
  /\ (forall a, Todo.new attrs = Some a ->
                title a = default "" (attr_title attrs)
                /\ completed a = default false (attr_completed attrs)
                /\ Some (order a) = attr_order attrs).
Proof.
  unfold Todo.new, Todo.attributes, Underscore.defaults, Todo.defaults.
  destruct attrs as [[t |] [c |] [o |]]; simpl;
    (split; [reflexivity |]); (split; [reflexivity |]); (split; [reflexivity |]);
    intros a H; inversion H; subst; repeat split.
Qed.

Lemma defaults_fill_missing_witness :
  Todo.new {| attr_title := None; attr_completed := None; attr_order := Some 7%Z |}
  = Some {| title := ""; completed := false; order := 7 |}
  /\ title {| title := ""; completed := false; order := 7 |} = "".
Proof.
  split; [reflexivity |].
  apply (proj2 (proj2 (proj2 (defaults_fill_missing
           {| attr_title := None; attr_completed := None; attr_order := Some 7%Z |})))
           {| title := ""; completed := false; order := 7 |} eq_refl).
Defined.

(** ** Visibility of an item *)

Lemma strict_eq_iff (v : JS.value) (literal : string) :
  JS.strict_eq v literal = true <-> v = JS.Str literal.
Proof.
  destruct v as [| t]; simpl; [split; discriminate |].
  rewrite String.eqb_eq. split; congruence.
Qed.

(** C5. An item view is hidden exactly when its item is not completed
    and the filter is ['completed'], or its item is completed and the
    filter is ['active']; with any other filter value, [''] and
    unrecognized strings included, it is visible. *)
Theorem isHidden_spec (this : TodoView.t) (s : App) :
  (TodoView.isHidden this s = true
   <-> (completed (objs s (TodoView.model this)) = false
        /\ filter_value s = JS.Str "completed")
       \/ (completed (objs s (TodoView.model this)) = true
           /\ filter_value s = JS.Str "active"))
  /\ (filter_value s <> JS.Str "completed" -> filter_value s <> JS.Str "active" ->
      TodoView.isHidden this s = false).
Proof.
  unfold TodoView.isHidden, Model.get.
  destruct (completed (objs s (TodoView.model this))); simpl.
  - rewrite ?orb_false_l, ?orb_false_r. split.
    + rewrite strict_eq_iff. intuition congruence.
    + intros _ Ha. apply not_true_is_false. now rewrite strict_eq_iff.
  - rewrite ?orb_false_l, ?orb_false_r. split.
    + rewrite strict_eq_iff. intuition congruence.
    + intros Hc _. apply not_true_is_false. now rewrite strict_eq_iff.
Qed.

Lemma isHidden_spec_witness :
  TodoView.isHidden (TodoView.mk 1 "" false)
    (Filters.filter (Some (JS.Str "archived")) init)
  = false.
Proof.
  apply (isHidden_spec (TodoView.mk 1 "" false)
           (Filters.filter (Some (JS.Str "archived")) init));
    simpl; discriminate.
Defined.

(** ** [nextOrder] *)

Lemma last_of_map {A B : Type} (f : A -> B) (l : list A) (d : A) :
  List.last (List.map f l) (f d) = f (List.last l d).
Proof.
  induction l as [| x l IH]; [reflexivity |].
  destruct l as [| y l]; [reflexivity |]. exact IH.
Qed.

Lemma last_in_cons {A : Type} (l : list A) (d : A) : In (List.last l d) (d :: l).
Proof.
  induction l as [| x l IH]; [now left |].
  destruct l as [| y l]; [right; now left |].
  change (List.last (x :: y :: l) d) with (List.last (y :: l) d).
  destruct IH as [IH | IH]; [now left | right; now right].
Qed.

(** The fold of [Z.max] is an element of the list and bounds it. *)
Lemma fold_max_member (o : Z) (os : list Z) : In (fold_right Z.max o os) (o :: os).
Proof.
  induction os as [| a os IH]; [now left |]. simpl.
  destruct (Z.max_spec a (fold_right Z.max o os)) as [[_ ->] | [_ ->]].
  - destruct IH as [IH | IH]; [now left | right; now right].
  - right. now left.
Qed.

Lemma fold_max_bound (o : Z) (os : list Z) :
  Forall (fun x => (x <= fold_right Z.max o os)%Z) (o :: os).
Proof.
  induction os as [| a os IH]; [constructor; [simpl; lia | constructor] |]. simpl.
  inversion IH as [| ? ? Ho Hos]; subst.
  constructor; [lia |]. constructor; [lia |].
  eapply Forall_impl; [| exact Hos]. simpl. intros; lia.
Qed.

Lemma last_cons_default {A : Type} (l : list A) (a d : A) :
  List.last (a :: l) d = List.last l a.
Proof.
  revert a d. induction l as [| b l IH]; intros a d; [reflexivity |].
  change (List.last (a :: b :: l) d) with (List.last (b :: l) d).
  now rewrite (IH b d), (IH b a).
Qed.

(** In an ascending list the last element bounds all the others. *)
Lemma sorted_last_bound (o : Z) (os : list Z) :
  StronglySorted Z.le (o :: os) ->
  Forall (fun x => (x <= List.last os o)%Z) (o :: os).
Proof.
  revert o. induction os as [| a os IH]; intros o Hs.
  - constructor; [simpl; lia | constructor].
  - apply StronglySorted_inv in Hs. destruct Hs as [Hs Ho].
    specialize (IH a Hs).
    rewrite last_cons_default. inversion IH as [| ? ? Ha Hos]; subst.
    inversion Ho as [| ? ? Hoa _]; subst.
    constructor; [lia | exact IH].
Qed.

Lemma maxOrder_is_maximum (s : App) (M : Z) :
  maxOrder s = Some M ->
  In M (orders s) /\ Forall (fun o => (o <= M)%Z) (orders s).
Proof.
  unfold maxOrder. destruct (orders s) as [| o os]; [discriminate |].
  intros H. injection H as <-. split; [apply fold_max_member | apply fold_max_bound].
Qed.

Lemma nextOrder_last (s : App) (m : positive) (ms : list positive) :
  models s = m :: ms ->
  TodoList.nextOrder s
  = (List.last (List.map (fun x => order (objs s x)) ms) (order (objs s m)) + 1)%Z.
Proof.
  intros Hm. unfold TodoList.nextOrder, Model.get. rewrite Hm.
  now rewrite (last_of_map (fun x => order (objs s x))).
Qed.

(** C3. [nextOrder()] is 1 on the empty store; on a store whose items are
    sorted by ascending order it is the maximum order of the store plus
    one. *)
Theorem nextOrder_spec (s : App) :
  (TodoList.length s = 0%nat -> TodoList.nextOrder s = 1%Z)
  /\ (Sorted Z.le (orders s) ->
      forall M, maxOrder s = Some M -> TodoList.nextOrder s = (M + 1)%Z).
Proof.
  split.
  - unfold TodoList.length, TodoList.nextOrder.
    destruct (models s); [reflexivity | discriminate].
  - intros Hsorted M HM.
    apply Sorted_StronglySorted in Hsorted; [| exact Z.le_trans].
    destruct (maxOrder_is_maximum s M HM) as [Hin Hub].
    unfold orders in *. destruct (models s) as [| m ms] eqn:Hm; [contradiction |].
    rewrite (nextOrder_last s m ms Hm). simpl in *.
    pose proof (sorted_last_bound _ _ Hsorted) as Hlast.
    pose proof (last_in_cons (List.map (fun x => order (objs s x)) ms) (order (objs s m)))
      as Hmem.
    rewrite Forall_forall in Hub, Hlast.
    specialize (Hub _ Hmem). specialize (Hlast _ Hin). lia.
Qed.

(** ** Destroying models *)

Lemma filter_twice {A : Type} (p q : A -> bool) (l : list A) :
  List.filter p (List.filter q l) = List.filter (fun x => q x && p x) l.
Proof.
  induction l as [| x l IH]; [reflexivity |]. simpl.
  destruct (q x); simpl; [destruct (p x) |]; now rewrite IH.
Qed.

(** Destroying the models of [l] one after the other removes exactly
    them from the collection and from [localStorage], and touches nothing
    else. *)
Lemma destroy_each (l : list positive) (s : App) :
  let s' := fold_left (fun st todo => Model.destroy todo st) l s in
  models s' = Underscore.without (models s) l
  /\ objs s' = objs s
  /\ next_cid s' = next_cid s
  /\ filter_value s' = filter_value s
  /\ new_todo s' = new_todo s
  /\ (forall m, localStorage s' !! m
                = if existsb (Pos.eqb m) l then None else localStorage s !! m).
Proof.
  revert s. induction l as [| x l IH]; intros s; simpl.
  - unfold Underscore.without; simpl. repeat split.
    symmetry. apply forallb_filter_id. now apply forallb_forall.
  - destruct (IH (Model.destroy x s)) as (Hm & Ho & Hn & Hf & Hi & Hl).
    repeat split; try assumption.
    + rewrite Hm. unfold Underscore.without, Model.destroy; simpl.
      rewrite filter_twice. apply filter_ext. intros y.
      now rewrite negb_orb.
    + intros m. rewrite Hl. unfold Model.destroy; simpl.
      destruct (Pos.eqb_spec m x) as [-> | Hne]; simpl.
      * destruct (existsb (Pos.eqb x) l); [reflexivity | apply lookup_delete_eq].
      * destruct (existsb (Pos.eqb m) l); [reflexivity |].
        apply lookup_delete_ne. congruence.
Qed.

(** C7. [clearCompleted()] leaves in the store exactly the items that
    were not completed when it was called, in their order; no model object
    changes, so every remaining item keeps all of its attributes, and only
    the records of the completed items leave [localStorage]. *)
Theorem clearCompleted_spec (s : App) :
  models (AppView.clearCompleted s)
  = List.filter (fun m => negb (completed (objs s m))) (models s)
  /\ (forall m, In m (models (AppView.clearCompleted s))
                <-> In m (models s) /\ completed (objs s m) = false)
  /\ (forall m, objs (AppView.clearCompleted s) m = objs s m)
  /\ (forall m, localStorage (AppView.clearCompleted s) !! m
                = if existsb (Pos.eqb m) (TodoList.completed s)
                  then None else localStorage s !! m).
Proof.
  unfold AppView.clearCompleted.
  destruct (destroy_each (TodoList.completed s) s) as (Hm & Ho & _ & _ & _ & Hl).
  assert (Hmodels :
    models (fold_left (fun st todo => Model.destroy todo st) (TodoList.completed s) s)
    = List.filter (fun m => negb (completed (objs s m))) (models s)).
  { rewrite Hm. unfold TodoList.completed, Model.get. apply without_filter. }
  split; [exact Hmodels |]. split; [| split].
  - intros m. rewrite Hmodels, filter_In, negb_true_iff. reflexivity.
  - intros m. now rewrite Ho.
  - exact Hl.
Qed.

(** ** Sorting by the comparator *)

Lemma insertBy_perm {A : Type} (key : A -> Z) (x : A) (l : list A) :
  Permutation (Underscore.insertBy key x l) (x :: l).
Proof.
  induction l as [| y l IH]; simpl; [reflexivity |].
  destruct (key x <=? key y)%Z; [reflexivity |].
  rewrite IH. apply perm_swap.
Qed.

Lemma sortBy_perm {A : Type} (key : A -> Z) (l : list A) :
  Permutation (Underscore.sortBy key l) l.
Proof.
  induction l as [| x l IH]; simpl; [reflexivity |].
  rewrite insertBy_perm. now apply perm_skip.
Qed.

(** A list already ascending by key is left as it is. *)
Lemma sortBy_sorted {A : Type} (key : A -> Z) (l : list A) :
  Sorted Z.le (List.map key l) -> Underscore.sortBy key l = l.
Proof.
  induction l as [| x l IH]; intros Hs; [reflexivity |]. simpl in *.
  apply Sorted_inv in Hs. destruct Hs as [Hs Hhd].
  rewrite (IH Hs). destruct l as [| y l]; [reflexivity |]. simpl in *.
  apply HdRel_inv in Hhd. apply Z.leb_le in Hhd. now rewrite Hhd.
Qed.

Lemma StronglySorted_weaken {A : Type} (R R' : A -> A -> Prop) (l : list A) :
  (forall x y, R x y -> R' x y) -> StronglySorted R l -> StronglySorted R' l.
Proof.
  intros HR. induction 1 as [| a l Hs IH Hall]; constructor; [exact IH |].
  eapply Forall_impl; [| exact Hall]. intros y. apply HR.
Qed.

Lemma StronglySorted_snoc (l : list Z) (z : Z) :
  StronglySorted Z.lt l -> Forall (fun o => (o < z)%Z) l ->
  StronglySorted Z.lt (l ++ [z]).
Proof.
  induction 1 as [| a l Hs IH Hall]; intros Hz; simpl.
  - constructor; constructor.
  - inversion Hz as [| ? ? Ha Hl]; subst. constructor; [now apply IH |].
    apply Forall_app. split; [exact Hall | constructor; [exact Ha | constructor]].
Qed.

Lemma StronglySorted_lt_NoDup (l : list Z) : StronglySorted Z.lt l -> List.NoDup l.
Proof.
  induction 1 as [| a l Hs IH Hall]; constructor; [| exact IH].
  intros Hin. rewrite Forall_forall in Hall. specialize (Hall a Hin). lia.
Qed.

Lemma StronglySorted_map_filter {A : Type} (R : Z -> Z -> Prop)
      (f : A -> Z) (p : A -> bool) (l : list A) :
  StronglySorted R (List.map f l) -> StronglySorted R (List.map f (List.filter p l)).
Proof.
  induction l as [| x l IH]; simpl; intros Hs; [constructor |].
  apply StronglySorted_inv in Hs. destruct Hs as [Hs Hall].
  destruct (p x); simpl; [| now apply IH].
  constructor; [now apply IH |].
  rewrite Forall_forall in Hall |- *. intros o Ho. apply Hall.
  apply in_map_iff in Ho. destruct Ho as (y & <- & Hy).
  apply filter_In in Hy. apply in_map. tauto.
Qed.

(** Every order of a strictly ascending store is below [nextOrder()]. *)
Lemma ordered_below_nextOrder (s : App) :
  ordered s -> Forall (fun o => (o < TodoList.nextOrder s)%Z) (orders s).
Proof.
  unfold ordered, orders. intros Hs.
  destruct (models s) as [| m ms] eqn:Hm; [constructor |].
  rewrite (nextOrder_last s m ms Hm). simpl in *.
  apply (StronglySorted_weaken Z.lt Z.le) in Hs; [| intros; lia].
  eapply Forall_impl; [| exact (sorted_last_bound _ _ Hs)].
  simpl. intros; lia.
Qed.

(** ** Creating an item *)

Lemma truthy_false (t : string) : JS.truthy t = false <-> t = "".
Proof. destruct t; simpl; split; congruence. Qed.

Lemma newAttributes_new (s : App) :
  Todo.new (AppView.newAttributes s)
  = Some {| title := JS.trim (new_todo s);
            completed := false;
            order := TodoList.nextOrder s |}.
Proof. reflexivity. Qed.

Lemma createOnEnter_blank (which : Z) (s : App) :
  JS.trim (new_todo s) = "" -> AppView.createOnEnter which s = s.
Proof.
  intros Hblank. unfold AppView.createOnEnter.
  rewrite (proj2 (truthy_false _) Hblank). simpl. now rewrite orb_true_r.
Qed.

Lemma createOnEnter_other_key (which : Z) (s : App) :
  which <> ENTER_KEY -> AppView.createOnEnter which s = s.
Proof.
  intros Hkey. unfold AppView.createOnEnter.
  apply Z.eqb_neq in Hkey. now rewrite Hkey.
Qed.

Lemma createOnEnter_creates (s : App) :
  JS.trim (new_todo s) <> "" ->
  AppView.createOnEnter ENTER_KEY s
  = AppView.set_input "" (TodoList.create (AppView.newAttributes s) s).
Proof.
  intros Htext. unfold AppView.createOnEnter.
  destruct (JS.truthy (JS.trim (new_todo s))) eqn:Ht.
  - reflexivity.
  - apply truthy_false in Ht. contradiction.
Qed.

(** C6. Enter in the new-item field: with a blank trimmed text nothing
    changes, store and field included.  Otherwise the heap gets one new
    model, with the trimmed text as title, [nextOrder()] of the store as
    order and [completed] false; it joins the models of the store, its
    record is written to [localStorage], no other model changes, and the
    field is cleared. *)
Theorem createOnEnter_spec (s : App) :
  (JS.trim (new_todo s) = "" -> AppView.createOnEnter ENTER_KEY s = s)
  /\ (JS.trim (new_todo s) <> "" ->
      let s' := AppView.createOnEnter ENTER_KEY s in
      let item := {| title := JS.trim (new_todo s);
                     completed := false;
                     order := TodoList.nextOrder s |} in
      objs s' (next_cid s) = item
      /\ (forall m, m <> next_cid s -> objs s' m = objs s m)
      /\ Permutation (models s') (models s ++ [next_cid s])
      /\ TodoList.length s' = S (TodoList.length s)
      /\ localStorage s' = <[next_cid s := item]> (localStorage s)
      /\ new_todo s' = "").
Proof.
  split; [apply createOnEnter_blank |].
  intros Htext. cbv zeta. rewrite (createOnEnter_creates s Htext).
  unfold TodoList.create, TodoList.length. rewrite newAttributes_new. simpl.
  repeat split.
  - apply fn_lookup_insert.
  - intros m Hm. apply fn_lookup_insert_ne. congruence.
  - apply sortBy_perm.
  - rewrite (Permutation_length (sortBy_perm _ _)), length_app. simpl. lia.
Qed.

(** ** The order invariant *)

Lemma save_orders (m : positive) (attrs : Attrs) (s : App) :
  attr_order attrs = None -> orders (Model.save m attrs s) = orders s.
Proof.
  intros Hnone. unfold orders. simpl. apply map_ext. intros x.
  destruct (Pos.eq_dec m x) as [<- | Hne].
  - rewrite fn_lookup_insert. unfold Model.set; simpl. now rewrite Hnone.
  - now rewrite fn_lookup_insert_ne.
Qed.

Lemma save_keeps (m : positive) (attrs : Attrs) (s : App) :
  attr_order attrs = None ->
  well_formed s /\ ordered s ->
  well_formed (Model.save m attrs s) /\ ordered (Model.save m attrs s).
Proof.
  intros Hnone [Hwf Hord]. split; [exact Hwf |].
  unfold ordered. now rewrite save_orders.
Qed.

Lemma destroy_keeps (m : positive) (s : App) :
  well_formed s /\ ordered s ->
  well_formed (Model.destroy m s) /\ ordered (Model.destroy m s).
Proof.
  intros [[Hfresh Hnodup] Hord]. split; [split |].
  - simpl. rewrite Forall_forall in Hfresh |- *. intros x Hx.
    apply filter_In in Hx. now apply Hfresh.
  - simpl. now apply List.NoDup_filter.
  - unfold ordered, orders in *. simpl. now apply StronglySorted_map_filter.
Qed.

Lemma fold_left_keeps_in {A : Type} (P : App -> Prop) (f : App -> A -> App)
      (l : list A) (s : App) :
  (forall st x, In x l -> P st -> P (f st x)) -> P s -> P (fold_left f l s).
Proof.
  revert s. induction l as [| x l IH]; intros s Hstep Hs; simpl; [exact Hs |].
  apply IH.
  - intros st y Hy. apply Hstep. now right.
  - apply Hstep; [now left | exact Hs].
Qed.

Lemma fold_left_keeps {A : Type} (P : App -> Prop) (f : App -> A -> App)
      (l : list A) (s : App) :
  (forall st x, P st -> P (f st x)) -> P s -> P (fold_left f l s).
Proof.
  intros Hstep. apply fold_left_keeps_in. intros st x _. apply Hstep.
Qed.

(** On a well-formed, strictly ascending store a created item lands at
    the end of the collection. *)
Lemma create_appends (s : App) :
  well_formed s -> ordered s -> JS.trim (new_todo s) <> "" ->
  models (AppView.createOnEnter ENTER_KEY s) = models s ++ [next_cid s]
  /\ orders (AppView.createOnEnter ENTER_KEY s) = orders s ++ [TodoList.nextOrder s]
  /\ next_cid (AppView.createOnEnter ENTER_KEY s) = Pos.succ (next_cid s).
Proof.
  intros [Hfresh _] Hord Htext. rewrite (createOnEnter_creates s Htext).
  unfold TodoList.create, orders. rewrite newAttributes_new. simpl.
  set (item := {| title := JS.trim (new_todo s); completed := false;
                  order := TodoList.nextOrder s |}).
  set (key := fun todo : positive => order ((<[next_cid s := item]> (objs s)) todo)).
  assert (Hkeys : List.map key (models s ++ [next_cid s])
                  = orders s ++ [TodoList.nextOrder s]).
  { rewrite map_app. simpl. unfold key at 2. rewrite fn_lookup_insert. simpl.
    f_equal. unfold orders. apply map_ext_in. intros x Hx. unfold key.
    rewrite fn_lookup_insert_ne; [reflexivity |].
    rewrite Forall_forall in Hfresh. specialize (Hfresh x Hx). lia. }
  assert (Hid : Underscore.sortBy key (models s ++ [next_cid s])
                = models s ++ [next_cid s]).
  { apply sortBy_sorted. rewrite Hkeys. apply StronglySorted_Sorted.
    apply (StronglySorted_weaken Z.lt Z.le); [intros; lia |].
    apply StronglySorted_snoc; [exact Hord | now apply ordered_below_nextOrder]. }
  rewrite Hid. repeat split. exact Hkeys.
Qed.

Lemma createOnEnter_keeps (which : Z) (s : App) :
  well_formed s /\ ordered s ->
  well_formed (AppView.createOnEnter which s)
  /\ ordered (AppView.createOnEnter which s).
Proof.
  intros [Hwf Hord].
  destruct (Z.eq_dec which ENTER_KEY) as [-> | Hkey];
    [| rewrite createOnEnter_other_key; [split |]; assumption].
  destruct (string_dec (JS.trim (new_todo s)) "") as [Hblank | Htext];
    [rewrite createOnEnter_blank; [split |]; assumption |].
  destruct (create_appends s Hwf Hord Htext) as (Hm & Ho & Hn).
  destruct Hwf as [Hfresh Hnodup]. split; [split |].
  - rewrite Hm, Hn. apply Forall_app. split.
    + eapply Forall_impl; [| exact Hfresh]. simpl. intros; lia.
    + constructor; [lia | constructor].
  - rewrite Hm. apply List.NoDup_app; [exact Hnodup | |].
    + constructor; [intros [] | constructor].
    + intros x Hx [<- | []].
      rewrite Forall_forall in Hfresh. specialize (Hfresh _ Hx). lia.
  - unfold ordered. rewrite Ho.
    apply StronglySorted_snoc; [exact Hord | now apply ordered_below_nextOrder].
Qed.

(** Every handler is made of five kinds of steps: writing the new-item
    field, [createOnEnter], saving attributes other than the order on a
    model of the collection, destroying a model, and setting the filter.
    What all five keep, every handler keeps. *)
Lemma handle_steps (P : App -> Prop) :
  (forall text s, P s -> P (AppView.set_input text s)) ->
  (forall which s, P s -> P (AppView.createOnEnter which s)) ->
  (forall m attrs s,
      existsb (Pos.eqb m) (models s) = true -> attr_order attrs = None ->
      P s -> P (Model.save m attrs s)) ->
  (forall m s, P s -> P (Model.destroy m s)) ->
  (forall param s, P s -> P (Filters.filter param s)) ->
  forall e s, P s -> P (handle e s).
Proof.
  intros Hinput Hcreate Hsave Hdestroy Hfilter e s Hs.
  assert (Hclose : forall v, live v s = true -> P (snd (TodoView.close v s))).
  { intros v Hlive. unfold TodoView.close; simpl.
    destruct (JS.truthy (TodoView.input v)); [now apply Hsave | now apply Hdestroy]. }
  destruct e as [text | which | | checked | v | v | v | v which | v | fragment];
    simpl.
  - now apply Hinput.
  - now apply Hcreate.
  - unfold AppView.clearCompleted. apply (fold_left_keeps P); [| exact Hs].
    intros st x. apply Hdestroy.
  - unfold AppView.toggleAllComplete.
    apply (fold_left_keeps_in (fun st => P st /\ models st = models s)); [| now split].
    intros st x Hx [Hst Hmodels]. split; [| exact Hmodels].
    apply Hsave; [| reflexivity | exact Hst].
    rewrite Hmodels. now apply existsb_eqb_In.
  - destruct (live v s) eqn:Hlive; [now apply Hsave | exact Hs].
  - exact Hs.
  - destruct (live v s); [now apply Hdestroy | exact Hs].
  - destruct (live v s) eqn:Hlive; [| exact Hs]. unfold TodoView.updateOnEnter.
    destruct (which =? ENTER_KEY)%Z; [now apply Hclose | exact Hs].
  - destruct (live v s) eqn:Hlive; [now apply Hclose | exact Hs].
  - now apply Hfilter.
Qed.

(** Every event handler keeps the store well formed and strictly
    ascending. *)
Lemma handle_keeps (e : Event) (s : App) :
  well_formed s /\ ordered s -> well_formed (handle e s) /\ ordered (handle e s).
Proof.
  apply (handle_steps (fun st => well_formed st /\ ordered st)).
  - intros text st Hst. exact Hst.
  - apply createOnEnter_keeps.
  - intros m attrs st _. apply save_keeps.
  - apply destroy_keeps.
  - intros param st Hst. exact Hst.
Qed.

Lemma init_invariant : well_formed init /\ ordered init.
Proof.
  split; [split |]; simpl.
  - constructor.
  - constructor.
  - constructor.
Qed.

Lemma run_keeps (events : list Event) (s : App) :
  well_formed s /\ ordered s ->
  well_formed (run events s) /\ ordered (run events s).
Proof.
  unfold run. apply (fold_left_keeps (fun st => well_formed st /\ ordered st)).
  intros st e. apply handle_keeps.
Qed.

(** C8. From the empty store, whatever the user does, the order values of
    the store strictly increase along the collection and so are pairwise
    distinct; every handler keeps this on any well-formed store that has
    it; and a created item is appended after all the others with an order
    above all of theirs. *)
Theorem order_unique_increasing :
  (forall events,
      StronglySorted Z.lt (orders (run events init))
      /\ List.NoDup (orders (run events init)))
  /\ (forall e s,
         well_formed s -> ordered s ->
         well_formed (handle e s) /\ ordered (handle e s))
  /\ (forall s,
         well_formed s -> ordered s -> JS.trim (new_todo s) <> "" ->
         models (AppView.createOnEnter ENTER_KEY s) = models s ++ [next_cid s]
         /\ orders (AppView.createOnEnter ENTER_KEY s)
            = orders s ++ [TodoList.nextOrder s]
         /\ Forall (fun o => (o < TodoList.nextOrder s)%Z) (orders s)).
Proof.
  split; [| split].
  - intros events. destruct (run_keeps events init init_invariant) as [_ Hord].
    split; [exact Hord | now apply StronglySorted_lt_NoDup].
  - intros e s Hwf Hord. now apply handle_keeps.
  - intros s Hwf Hord Htext.
    destruct (create_appends s Hwf Hord Htext) as (Hm & Ho & _).
    repeat split; [exact Hm | exact Ho | now apply ordered_below_nextOrder].
Qed.

(** ** The filter *)

Lemma handle_filter_value (e : Event) (s : App) :
  filter_value (handle e s)
  = match e with Route param => param | _ => filter_value s end.
Proof.
  destruct e as [text | which | | checked | v | v | v | v which | v | param];
    simpl; try reflexivity.
  - unfold AppView.createOnEnter.
    destruct (negb (which =? ENTER_KEY)%Z || negb (JS.truthy (JS.trim (new_todo s))));
      [reflexivity |].
    unfold TodoList.create. now rewrite newAttributes_new.
  - unfold AppView.clearCompleted.
    now destruct (destroy_each (TodoList.completed s) s) as (_ & _ & _ & Hf & _).
  - unfold AppView.toggleAllComplete.
    apply (fold_left_keeps (fun st => filter_value st = filter_value s));
      [intros st x Hst; exact Hst | reflexivity].
  - now destruct (live v s).
  - now destruct (live v s).
  - destruct (live v s); [| reflexivity]. unfold TodoView.updateOnEnter.
    destruct (which =? ENTER_KEY)%Z; [| reflexivity].
    unfold TodoView.close; simpl. now destruct (JS.truthy (TodoView.input v)).
  - destruct (live v s); [| reflexivity].
    unfold TodoView.close; simpl. now destruct (JS.truthy (TodoView.input v)).
Qed.

Lemma run_filter_value (events : list Event) (s : App) :
  filter_value (run events s) = routed events (filter_value s).
Proof.
  unfold run, routed. revert s.
  induction events as [| e events IH]; intros s; simpl; [reflexivity |].
  rewrite IH, handle_filter_value. reflexivity.
Qed.

Lemma routed_keyword (events : list Event) (current : JS.value) :
  Forall routes_keyword events -> filter_keyword current ->
  filter_keyword (routed events current).
Proof.
  unfold routed. intros Hall. revert current.
  induction Hall as [| e events He _ IH]; intros current Hcur; simpl; [exact Hcur |].
  apply IH. destruct e; try exact Hcur. exact He.
Qed.

(** C2, as the program has it. [TodoFilter.value] is [''] when the filter
    is built and afterwards whatever the router last handed to [filter],
    stored as it came: an unrecognized string stays, and so does [null],
    since the default [''] stands in for [undefined] only.  No other
    handler writes it.  It is one of the three keywords in every state
    reached by routing only those. *)
Theorem filter_value_spec :
  filter_value init = JS.Str ""
  /\ (forall param s,
         filter_value (Filters.filter param s) = default (JS.Str "") param)
  /\ (forall s, filter_value (handle (Route JS.Null) s) = JS.Null)
  /\ (forall e s, (forall param, e <> Route param) ->
                  filter_value (handle e s) = filter_value s)
  /\ (forall events, filter_value (run events init) = routed events (JS.Str ""))
  /\ (forall events, Forall routes_keyword events ->
                     filter_keyword (filter_value (run events init))).
Proof.
  split; [reflexivity |]. split; [reflexivity |]. split; [reflexivity |].
  split; [| split].
  - intros e s Hne. rewrite handle_filter_value.
    destruct e; try reflexivity. now destruct (Hne param).
  - intros events. apply run_filter_value.
  - intros events Hall. rewrite run_filter_value.
    apply routed_keyword; [exact Hall | now left].
Qed.

Lemma filter_value_spec_witness :
  filter_keyword
    (filter_value
       (run [Route (JS.Str "active"); ClickClearCompleted; Route (JS.Str "")] init)).
Proof.
  apply filter_value_spec.
  constructor; [simpl; right; left; reflexivity |].
  constructor; [exact I |].
  constructor; [simpl; left; reflexivity | constructor].
Defined.

(** C2, as stated, fails: the router stores an unrecognized parameter. *)
Lemma filter_value_not_keyword :
  ~ filter_keyword (filter_value (run [Route (JS.Str "archived")] init)).
Proof.
  simpl. intros [H | [H | H]]; discriminate H.
Qed.

(** Nor is the value a string after a route with an empty fragment. *)
Lemma filter_value_null :
  filter_value (run [Route JS.Null] init) = JS.Null
  /\ ~ filter_keyword (filter_value (run [Route JS.Null] init)).
Proof.
  split; [reflexivity |]. simpl. intros [H | [H | H]]; discriminate H.
Qed.

(** ** Closing the edit field *)

Lemma filter_remove_length (m : positive) (l : list positive) :
  List.NoDup l -> In m l ->
  S (List.length (List.filter (fun x => negb (Pos.eqb x m)) l)) = List.length l.
Proof.
  induction 1 as [| a l Hnotin Hnodup IH]; intros Hin; [destruct Hin |]. simpl.
  destruct (Pos.eqb_spec a m) as [-> | Hne]; simpl.
  - f_equal. f_equal. apply forallb_filter_id, forallb_forall.
    intros x Hx. apply negb_true_iff, Pos.eqb_neq. congruence.
  - f_equal. apply IH. destruct Hin as [Heq | Hin]; [contradiction | exact Hin].
Qed.

(** A truthy field value is saved as the title, just as it was typed. *)
Lemma close_saves_title (v : TodoView.t) (s : App) :
  TodoView.input v <> "" ->
  title (objs (snd (TodoView.close v s)) (TodoView.model v)) = TodoView.input v
  /\ models (snd (TodoView.close v s)) = models s
  /\ localStorage (snd (TodoView.close v s)) !! TodoView.model v
     = Some (objs (snd (TodoView.close v s)) (TodoView.model v))
  /\ TodoView.editing (fst (TodoView.close v s)) = false.
Proof.
  intros Hne. unfold TodoView.close; simpl.
  destruct (JS.truthy (TodoView.input v)) eqn:Ht;
    [| apply truthy_false in Ht; contradiction].
  simpl. rewrite fn_lookup_insert, lookup_insert_eq. repeat split.
Qed.

(** X5. [close()] on an empty field destroys the item: it leaves the
    store, which gets one shorter, and its record leaves [localStorage]. *)
Lemma close_empty_destroys (v : TodoView.t) (s : App) :
  TodoView.input v = "" ->
  well_formed s -> In (TodoView.model v) (models s) ->
  ~ In (TodoView.model v) (models (snd (TodoView.close v s)))
  /\ S (TodoList.length (snd (TodoView.close v s))) = TodoList.length s
  /\ localStorage (snd (TodoView.close v s)) !! TodoView.model v = None.
Proof.
  intros Hempty [_ Hnodup] Hin. unfold TodoView.close, TodoList.length; simpl.
  rewrite Hempty; simpl. split; [| split].
  - rewrite filter_In, negb_true_iff, Pos.eqb_neq. tauto.
  - now apply filter_remove_length.
  - apply lookup_delete_eq.
Qed.

(** C1 at a field holding one space: the trimmed title is empty, yet
    [close()] saves the space as the title and the item stays in the store,
    whereas the same text in the new-item field creates nothing. *)
Theorem close_blank_title_keeps_item :
  JS.trim (TodoView.input blank_edit) = ""
  /\ TodoView.editing blank_edit = true
  /\ models three_items = [1; 2; 3]%positive
  /\ models (snd (TodoView.close blank_edit three_items)) = [1; 2; 3]%positive
  /\ title (objs (snd (TodoView.close blank_edit three_items)) 1%positive) = " "
  /\ localStorage (snd (TodoView.close blank_edit three_items)) !! 1%positive
     = Some {| title := " "; completed := false; order := 1 |}
  /\ AppView.createOnEnter ENTER_KEY (AppView.set_input " " three_items)
     = AppView.set_input " " three_items.
Proof.
  repeat split; reflexivity.
Qed.

(** ** Persistence *)

Lemma existsb_filter_ne (x m : positive) (l : list positive) :
  existsb (Pos.eqb x) (List.filter (fun y => negb (Pos.eqb y m)) l)
  = negb (Pos.eqb x m) && existsb (Pos.eqb x) l.
Proof.
  induction l as [| y l IH]; simpl; [now rewrite andb_false_r |].
  destruct (Pos.eqb y m) eqn:Hym; simpl; rewrite IH.
  - apply Pos.eqb_eq in Hym. subst y. now destruct (Pos.eqb x m).
  - destruct (Pos.eqb x y) eqn:Hxy; simpl; [| reflexivity].
    apply Pos.eqb_eq in Hxy. subst y. now rewrite Hym.
Qed.

Lemma existsb_perm (x : positive) (l k : list positive) :
  Permutation l k -> existsb (Pos.eqb x) l = existsb (Pos.eqb x) k.
Proof.
  intros Hperm. apply eq_true_iff_eq. rewrite !existsb_eqb_In.
  split; apply Permutation_in; [exact Hperm | now symmetry].
Qed.

Lemma save_mirrored (m : positive) (attrs : Attrs) (s : App) :
  existsb (Pos.eqb m) (models s) = true -> mirrored s ->
  mirrored (Model.save m attrs s).
Proof.
  intros Hlive Hmir x. unfold Model.save; simpl.
  destruct (Pos.eq_dec m x) as [<- | Hne].
  - now rewrite lookup_insert_eq, fn_lookup_insert, Hlive.
  - rewrite lookup_insert_ne, fn_lookup_insert_ne by assumption. apply Hmir.
Qed.

Lemma destroy_mirrored (m : positive) (s : App) :
  mirrored s -> mirrored (Model.destroy m s).
Proof.
  intros Hmir x. unfold Model.destroy; simpl. rewrite existsb_filter_ne.
  destruct (Pos.eqb_spec x m) as [-> | Hne]; simpl.
  - apply lookup_delete_eq.
  - rewrite lookup_delete_ne by congruence. apply Hmir.
Qed.

Lemma createOnEnter_mirrored (which : Z) (s : App) :
  well_formed s -> mirrored s -> mirrored (AppView.createOnEnter which s).
Proof.
  intros [Hfresh _] Hmir. unfold AppView.createOnEnter.
  destruct (negb (which =? ENTER_KEY)%Z || negb (JS.truthy (JS.trim (new_todo s))));
    [exact Hmir |].
  unfold TodoList.create. rewrite newAttributes_new. intros x; simpl.
  rewrite (existsb_perm x _ _ (sortBy_perm _ _)), existsb_app; simpl.
  rewrite orb_false_r.
  destruct (Pos.eq_dec (next_cid s) x) as [<- | Hne].
  - rewrite lookup_insert_eq, fn_lookup_insert, Pos.eqb_refl.
    now rewrite orb_true_r.
  - rewrite lookup_insert_ne, fn_lookup_insert_ne by assumption.
    rewrite (proj2 (Pos.eqb_neq x (next_cid s))) by congruence.
    rewrite orb_false_r. apply Hmir.
Qed.

(** X10. Every mutation reaches [localStorage]: in every state the
    application reaches from an empty one, the stored records are those of
    the models of the collection, as they currently are. *)
Lemma storage_mirrors_store (events : list Event) : mirrored (run events init).
Proof.
  assert (H : (well_formed (run events init) /\ ordered (run events init))
              /\ mirrored (run events init)); [| apply H].
  unfold run.
  apply (fold_left_keeps
           (fun st => (well_formed st /\ ordered st) /\ mirrored st)).
  - intros st e.
    apply (handle_steps (fun st => (well_formed st /\ ordered st) /\ mirrored st)).
    + intros text st' Hst. exact Hst.
    + intros which st' [Hinv Hmir]. split; [now apply createOnEnter_keeps |].
      apply createOnEnter_mirrored; [apply Hinv | exact Hmir].
    + intros m attrs st' Hlive Hnone [Hinv Hmir].
      split; [now apply save_keeps | now apply save_mirrored].
    + intros m st' [Hinv Hmir].
      split; [now apply destroy_keeps | now apply destroy_mirrored].
    + intros param st' Hst. exact Hst.
  - split; [exact init_invariant |]. intros m. simpl. apply lookup_empty.
Qed.

(** ** Instances and scenarios *)

Lemma nextOrder_spec_witness :
  Sorted Z.le (orders three_items)
  /\ maxOrder three_items = Some 3%Z
  /\ TodoList.nextOrder three_items = 4%Z.
Proof.
  assert (Hsorted : Sorted Z.le (orders three_items)).
  { vm_compute. repeat constructor; discriminate. }
  split; [exact Hsorted |]. split; [reflexivity |].
  apply (proj2 (nextOrder_spec three_items) Hsorted 3%Z). reflexivity.
Defined.

Lemma createOnEnter_spec_witness :
  JS.trim (new_todo (AppView.set_input " buy milk " three_items)) <> ""
  /\ objs (AppView.createOnEnter ENTER_KEY (AppView.set_input " buy milk " three_items))
          4%positive
     = {| title := "buy milk"; completed := false; order := 4 |}.
Proof.
  assert (Htext : JS.trim (new_todo (AppView.set_input " buy milk " three_items)) <> "").
  { vm_compute. discriminate. }
  split; [exact Htext |].
  apply (proj2 (createOnEnter_spec (AppView.set_input " buy milk " three_items)) Htext).
Defined.

Lemma order_unique_increasing_witness :
  well_formed three_items
  /\ ordered three_items
  /\ ordered (handle ClickClearCompleted three_items).
Proof.
  assert (Hwf : well_formed three_items).
  { split.
    - vm_compute. repeat constructor.
    - repeat constructor; simpl; intuition discriminate. }
  assert (Hord : ordered three_items).
  { unfold ordered. vm_compute. repeat constructor. }
  split; [exact Hwf |]. split; [exact Hord |].
  apply (proj1 (proj2 order_unique_increasing) ClickClearCompleted three_items Hwf Hord).
Defined.

(** The scenario of the specification: with two completed items and one
    remaining, [clearCompleted()] leaves a store of length 1 whose item is
    the remaining one, unchanged. *)
Example clearCompleted_scenario :
  List.length (TodoList.completed two_completed) = 2%nat
  /\ List.length (TodoList.remaining two_completed) = 1%nat
  /\ models (AppView.clearCompleted two_completed) = [3%positive]
  /\ objs (AppView.clearCompleted two_completed) 3%positive
     = {| title := "C"; completed := false; order := 3 |}.
Proof. repeat split; reflexivity. Qed.

(** The scenario of the specification: on a store of one open item,
    [toggleAllComplete] with the box checked leaves one completed item and
    none remaining. *)
Example toggleAllComplete_scenario :
  let s := run [TypeNewTodo "A"; KeypressNewTodo 13; ClickToggleAll true] init in
  List.length (TodoList.completed s) = 1%nat
  /\ List.length (TodoList.remaining s) = 0%nat.
Proof. split; reflexivity. Qed.

(** An edit that closes on a padded title stores the padding. *)
Example close_padded_title :
  title (objs (snd (TodoView.close (TodoView.mk 2 " B2 " true) three_items)) 2%positive)
  = " B2 ".
Proof. reflexivity. Qed.

(** ** Toggling every item *)

Lemma set_twice (a : Attributes) (attrs : Attrs) :
  Model.set (Model.set a attrs) attrs = Model.set a attrs.
Proof.
  unfold Model.set; simpl.
  destruct (attr_title attrs), (attr_completed attrs), (attr_order attrs); reflexivity.
Qed.

(** Saving the same attributes on each model of [l] in turn: a model of
    [l] ends up with the attributes set, any other is left alone. *)
Lemma save_each (attrs : Attrs) (l : list positive) (s : App) :
  let s' := fold_left (fun st todo => Model.save todo attrs st) l s in
  models s' = models s
  /\ next_cid s' = next_cid s
  /\ filter_value s' = filter_value s
  /\ new_todo s' = new_todo s
  /\ (forall m, objs s' m
                = if existsb (Pos.eqb m) l then Model.set (objs s m) attrs
                  else objs s m)
  /\ (forall m, localStorage s' !! m
                = if existsb (Pos.eqb m) l then Some (Model.set (objs s m) attrs)
                  else localStorage s !! m).
Proof.
  revert s. induction l as [| x l IH]; intros s; simpl; [repeat split |].
  destruct (IH (Model.save x attrs s)) as (Hm & Hn & Hf & Hi & Ho & Hl).
  repeat split; try assumption.
  - intros m. rewrite Ho. destruct (Pos.eqb_spec m x) as [-> | Hne]; cbn [orb].
    + rewrite save_objs_same, set_twice. now destruct (existsb (Pos.eqb x) l).
    + rewrite save_objs_other by congruence. reflexivity.
  - intros m. rewrite Hl. destruct (Pos.eqb_spec m x) as [-> | Hne]; cbn [orb].
    + rewrite save_objs_same, set_twice. unfold Model.save; simpl.
      rewrite lookup_insert_eq. now destruct (existsb (Pos.eqb x) l).
    + rewrite save_objs_other by congruence. unfold Model.save; simpl.
      rewrite lookup_insert_ne by congruence. reflexivity.
Qed.

Lemma remaining_filter (s : App) :
  TodoList.remaining s
  = List.filter (fun m => negb (completed (objs s m))) (models s).
Proof. unfold TodoList.remaining, TodoList.completed, Model.get. apply without_filter. Qed.

Lemma filter_all {A : Type} (p : A -> bool) (l : list A) :
  (forall x, In x l -> p x = true) -> List.filter p l = l.
Proof. intros H. apply forallb_filter_id, forallb_forall, H. Qed.

Lemma filter_none {A : Type} (p : A -> bool) (l : list A) :
  (forall x, In x l -> p x = false) -> List.filter p l = [].
Proof.
  induction l as [| x l IH]; intros H; simpl; [reflexivity |].
  rewrite (H x) by now left. apply IH. intros y Hy. apply H. now right.
Qed.

(** X1. [toggleAllComplete] writes the state of the toggle-all box into
    the [completed] flag of every item of the store and saves it; titles
    and orders stay, the store keeps its items in their order, and a model
    outside the store is not touched. *)
Theorem toggleAllComplete_sets_all (checked : bool) (s : App) :
  models (AppView.toggleAllComplete checked s) = models s
  /\ (forall m, In m (models s) ->
                objs (AppView.toggleAllComplete checked s) m
                = {| title := title (objs s m);
                     completed := checked;
                     order := order (objs s m) |}
                /\ localStorage (AppView.toggleAllComplete checked s) !! m
                   = Some (objs (AppView.toggleAllComplete checked s) m))
  /\ (forall m, ~ In m (models s) ->
                objs (AppView.toggleAllComplete checked s) m = objs s m
                /\ localStorage (AppView.toggleAllComplete checked s) !! m
                   = localStorage s !! m).
Proof.
  unfold AppView.toggleAllComplete.
  destruct (save_each
              {| attr_title := None; attr_completed := Some checked; attr_order := None |}
              (models s) s) as (Hm & _ & _ & _ & Ho & Hl).
  split; [exact Hm |]. split.
  - intros m Hin. apply existsb_eqb_In in Hin.
    rewrite Ho, Hl, Hin. split; reflexivity.
  - intros m Hin. rewrite Ho, Hl.
    destruct (existsb (Pos.eqb m) (models s)) eqn:Hex; [| split; reflexivity].
    apply existsb_eqb_In in Hex. contradiction.
Qed.

Lemma toggleAllComplete_sets_all_witness :
  objs (AppView.toggleAllComplete true three_items) 2%positive
  = {| title := "B"; completed := true; order := 2 |}.
Proof.
  apply (proj1 (proj2 (toggleAllComplete_sets_all true three_items)) 2%positive).
  simpl. right. left. reflexivity.
Defined.

Lemma toggleAllComplete_completed (checked : bool) (s : App) (m : positive) :
  In m (models s) ->
  completed (objs (AppView.toggleAllComplete checked s) m) = checked.
Proof.
  intros Hin. unfold AppView.toggleAllComplete.
  destruct (save_each
              {| attr_title := None; attr_completed := Some checked; attr_order := None |}
              (models s) s) as (_ & _ & _ & _ & Ho & _).
  apply existsb_eqb_In in Hin. now rewrite Ho, Hin.
Qed.

Lemma toggleAllComplete_models (checked : bool) (s : App) :
  models (AppView.toggleAllComplete checked s) = models s.
Proof.
  unfold AppView.toggleAllComplete.
  now destruct (save_each
              {| attr_title := None; attr_completed := Some checked; attr_order := None |}
              (models s) s) as (Hm & _).
Qed.

(** X2. After [toggleAllComplete] with the box checked, [completed()] is
    the whole store and [remaining()] is empty, so [clearCompleted()] then
    empties the store; with the box unchecked it is the other way round
    and [clearCompleted()] removes nothing. *)
Theorem toggleAllComplete_then_views (s : App) :
  TodoList.completed (AppView.toggleAllComplete true s) = models s
  /\ TodoList.remaining (AppView.toggleAllComplete true s) = []
  /\ models (AppView.clearCompleted (AppView.toggleAllComplete true s)) = []
  /\ TodoList.completed (AppView.toggleAllComplete false s) = []
  /\ TodoList.remaining (AppView.toggleAllComplete false s) = models s
  /\ models (AppView.clearCompleted (AppView.toggleAllComplete false s)) = models s.
Proof.
  assert (Hclear : forall st, models (AppView.clearCompleted st) = TodoList.remaining st).
  { intros st. unfold AppView.clearCompleted, TodoList.remaining.
    now destruct (destroy_each (TodoList.completed st) st) as (Hm & _). }
  rewrite !Hclear, !remaining_filter.
  unfold TodoList.completed, Model.get. rewrite !toggleAllComplete_models.
  repeat split.
  - apply filter_all. intros m Hm. now apply toggleAllComplete_completed.
  - apply filter_none. intros m Hm. now rewrite toggleAllComplete_completed.
  - apply filter_none. intros m Hm. now rewrite toggleAllComplete_completed.
  - apply filter_none. intros m Hm. now apply toggleAllComplete_completed.
  - apply filter_all. intros m Hm. now rewrite toggleAllComplete_completed.
  - apply filter_all. intros m Hm. now rewrite toggleAllComplete_completed.
Qed.

(** ** Toggling one item *)

(** X3. Toggling an item moves it between [completed()] and
    [remaining()], and every other item stays in the list it was in. *)
Theorem toggle_moves_item (this : positive) (s : App) :
  (In this (TodoList.completed (Todo.toggle this s))
   <-> In this (TodoList.remaining s))
  /\ (In this (TodoList.remaining (Todo.toggle this s))
      <-> In this (TodoList.completed s))
  /\ (forall m, m <> this ->
                (In m (TodoList.completed (Todo.toggle this s))
                 <-> In m (TodoList.completed s))
                /\ (In m (TodoList.remaining (Todo.toggle this s))
                    <-> In m (TodoList.remaining s))).
Proof.
  rewrite !remaining_filter. unfold TodoList.completed, Todo.toggle, Model.get.
  change (models (Model.save this _ s)) with (models s).
  repeat split; rewrite !filter_In;
    try (rewrite save_objs_same, set_completed_only; simpl;
         destruct (completed (objs s this)); simpl; tauto);
    rewrite save_objs_other by congruence; tauto.
Qed.

Lemma toggle_moves_item_witness :
  In 3%positive (TodoList.remaining (Todo.toggle 1%positive three_items)).
Proof.
  apply (proj2 (proj2 (proj2 (toggle_moves_item 1%positive three_items))
                  3%positive ltac:(discriminate))).
  vm_compute. right. right. left. reflexivity.
Defined.

(** ** Removing one item *)

(** X4. [clear()] removes the item of its view from the store and its
    record from [localStorage], and nothing else: the other items keep
    their place and no model object changes.  For an item of a well-formed
    store the store gets exactly one shorter; for a model that is not in
    the store, the store stays as it is. *)
Theorem clear_removes_item (v : TodoView.t) (s : App) :
  models (TodoView.clear v s)
  = List.filter (fun m => negb (Pos.eqb m (TodoView.model v))) (models s)
  /\ ~ In (TodoView.model v) (models (TodoView.clear v s))
  /\ (forall m, objs (TodoView.clear v s) m = objs s m)
  /\ localStorage (TodoView.clear v s) = delete (TodoView.model v) (localStorage s)
  /\ (well_formed s -> In (TodoView.model v) (models s) ->
      S (TodoList.length (TodoView.clear v s)) = TodoList.length s)
  /\ (~ In (TodoView.model v) (models s) ->
      models (TodoView.clear v s) = models s).
Proof.
  unfold TodoView.clear, Model.destroy, TodoList.length; simpl.
  split; [reflexivity |]. split; [| split; [reflexivity |]; split; [reflexivity |]; split].
  - rewrite filter_In, negb_true_iff, Pos.eqb_neq. tauto.
  - intros [_ Hnodup] Hin. now apply filter_remove_length.
  - intros Hnotin. apply filter_all. intros x Hx.
    apply negb_true_iff, Pos.eqb_neq. congruence.
Qed.

Lemma clear_removes_item_witness :
  S (TodoList.length (TodoView.clear blank_edit three_items))
  = TodoList.length three_items.
Proof.
  apply (proj1 (proj2 (proj2 (proj2 (proj2
           (clear_removes_item blank_edit three_items)))))).
  - split.
    + vm_compute. repeat constructor.
    + repeat constructor; simpl; intuition discriminate.
  - simpl. left. reflexivity.
Defined.

Lemma close_empty_destroys_witness :
  S (TodoList.length
       (snd (TodoView.close (TodoView.mk 2 "" true) three_items)))
  = TodoList.length three_items.
Proof.
  apply (close_empty_destroys (TodoView.mk 2 "" true) three_items).
  - reflexivity.
  - split.
    + vm_compute. repeat constructor.
    + repeat constructor; simpl; intuition discriminate.
  - simpl. right. left. reflexivity.
Defined.

(** X6. Whatever the field holds, [close()] leaves editing mode, changes
    neither the [completed] flag nor the order of any model, leaves every
    model but the view's own as it is, and adds nothing to the store. *)
Theorem close_frame (v : TodoView.t) (s : App) :
  TodoView.editing (fst (TodoView.close v s)) = false
  /\ TodoView.model (fst (TodoView.close v s)) = TodoView.model v
  /\ (forall m, completed (objs (snd (TodoView.close v s)) m) = completed (objs s m)
                /\ order (objs (snd (TodoView.close v s)) m) = order (objs s m))
  /\ (forall m, m <> TodoView.model v ->
                objs (snd (TodoView.close v s)) m = objs s m
                /\ localStorage (snd (TodoView.close v s)) !! m = localStorage s !! m)
  /\ (forall m, In m (models (snd (TodoView.close v s))) -> In m (models s))
  /\ new_todo (snd (TodoView.close v s)) = new_todo s
  /\ filter_value (snd (TodoView.close v s)) = filter_value s.
Proof.
  unfold TodoView.close, TodoView.clear; simpl.
  split; [reflexivity |]. split; [reflexivity |].
  destruct (JS.truthy (TodoView.input v)); simpl.
  - split; [| split; [| split; [tauto | split; reflexivity]]].
    + intros m. destruct (Pos.eq_dec (TodoView.model v) m) as [<- | Hne].
      * now rewrite fn_lookup_insert.
      * now rewrite fn_lookup_insert_ne.
    + intros m Hne. split.
      * apply fn_lookup_insert_ne. congruence.
      * apply lookup_insert_ne. congruence.
  - split; [| split; [| split; [| split; reflexivity]]].
    + intros m. split; reflexivity.
    + intros m Hne. split; [reflexivity |]. apply lookup_delete_ne. congruence.
    + intros m Hin. apply filter_In in Hin. tauto.
Qed.

Lemma close_frame_witness :
  objs (snd (TodoView.close blank_edit three_items)) 2%positive
  = objs three_items 2%positive.
Proof.
  apply (proj1 (proj2 (proj2 (proj2 (close_frame blank_edit three_items))))
           2%positive ltac:(discriminate)).
Defined.

(** X17. Opening the editor and closing it on the unchanged, non-empty
    title changes no model and not the store; [edit()] enters editing mode
    keeping the field, [close()] leaves it. *)
Theorem edit_then_close_unchanged (v : TodoView.t) (s : App) :
  TodoView.input v = title (objs s (TodoView.model v)) ->
  TodoView.input v <> "" ->
  TodoView.editing (TodoView.edit v) = true
  /\ TodoView.input (TodoView.edit v) = TodoView.input v
  /\ TodoView.editing (fst (TodoView.close (TodoView.edit v) s)) = false
  /\ (forall m, objs (snd (TodoView.close (TodoView.edit v) s)) m = objs s m)
  /\ models (snd (TodoView.close (TodoView.edit v) s)) = models s.
Proof.
  intros Htitle Hne. unfold TodoView.close, TodoView.edit; simpl.
  destruct (JS.truthy (TodoView.input v)) eqn:Ht;
    [| apply truthy_false in Ht; contradiction].
  simpl. repeat split. intros m.
  destruct (Pos.eq_dec (TodoView.model v) m) as [<- | Hneq].
  - rewrite fn_lookup_insert. unfold Model.set; simpl. rewrite Htitle.
    now destruct (objs s (TodoView.model v)).
  - now rewrite fn_lookup_insert_ne.
Qed.

Lemma edit_then_close_unchanged_witness :
  objs (snd (TodoView.close (TodoView.edit (TodoView.mk 2 "B" false)) three_items))
       2%positive
  = objs three_items 2%positive.
Proof.
  apply (edit_then_close_unchanged (TodoView.mk 2 "B" false) three_items).
  - reflexivity.
  - discriminate.
Defined.

(** ** Clearing twice *)

Lemma clearCompleted_effect (s : App) :
  models (AppView.clearCompleted s)
  = List.filter (fun m => negb (completed (objs s m))) (models s)
  /\ objs (AppView.clearCompleted s) = objs s.
Proof.
  unfold AppView.clearCompleted.
  destruct (destroy_each (TodoList.completed s) s) as (Hm & Ho & _).
  split; [| exact Ho]. rewrite Hm. apply remaining_filter.
Qed.

(** X11. After [clearCompleted()] no item of the store is completed,
    [remaining()] is what it was, the store has lost as many items as were
    completed, and a second [clearCompleted()] removes nothing. *)
Theorem clearCompleted_idempotent (s : App) :
  TodoList.completed (AppView.clearCompleted s) = []
  /\ TodoList.remaining (AppView.clearCompleted s) = TodoList.remaining s
  /\ models (AppView.clearCompleted s) = TodoList.remaining s
  /\ (TodoList.length (AppView.clearCompleted s)
      + List.length (TodoList.completed s) = TodoList.length s)%nat
  /\ models (AppView.clearCompleted (AppView.clearCompleted s))
     = models (AppView.clearCompleted s).
Proof.
  destruct (clearCompleted_effect s) as [Hm Ho].
  destruct (clearCompleted_effect (AppView.clearCompleted s)) as [Hm2 _].
  rewrite Hm2, !remaining_filter. unfold TodoList.completed, TodoList.length, Model.get.
  rewrite Ho, Hm. repeat split.
  - rewrite filter_twice. apply filter_none. intros m _.
    now destruct (completed (objs s m)).
  - rewrite filter_twice. apply filter_ext. intros m.
    now destruct (completed (objs s m)).
  - rewrite <- (filter_length_split (fun m => completed (objs s m)) (models s)). lia.
  - rewrite filter_twice. apply filter_ext. intros m.
    now destruct (completed (objs s m)).
Qed.

(** ** Items typed in a row *)

Lemma nextOrder_orders (s : App) :
  TodoList.nextOrder s = (List.last (orders s) 0 + 1)%Z.
Proof.
  unfold orders. destruct (models s) as [| m ms] eqn:Hm.
  - unfold TodoList.nextOrder. now rewrite Hm.
  - rewrite (nextOrder_last s m ms Hm). simpl List.map.
    now rewrite last_cons_default.
Qed.

Lemma orders_items (s : App) : orders s = List.map order (items s).
Proof. unfold orders, items. now rewrite map_map. Qed.

Lemma createOnEnter_objs (s : App) :
  JS.trim (new_todo s) <> "" ->
  objs (AppView.createOnEnter ENTER_KEY s)
  = <[next_cid s := {| title := JS.trim (new_todo s);
                       completed := false;
                       order := TodoList.nextOrder s |}]> (objs s).
Proof.
  intros Htext. rewrite (createOnEnter_creates s Htext).
  unfold TodoList.create. now rewrite newAttributes_new.
Qed.

Lemma create_items (s : App) :
  well_formed s -> ordered s -> JS.trim (new_todo s) <> "" ->
  items (AppView.createOnEnter ENTER_KEY s)
  = items s ++ [{| title := JS.trim (new_todo s);
                   completed := false;
                   order := TodoList.nextOrder s |}].
Proof.
  intros Hwf Hord Htext.
  destruct (create_appends s Hwf Hord Htext) as (Hm & _ & _).
  unfold items. rewrite Hm, (createOnEnter_objs s Htext), map_app. simpl.
  rewrite fn_lookup_insert. f_equal. apply map_ext_in. intros x Hx.
  apply fn_lookup_insert_ne. destruct Hwf as [Hfresh _].
  rewrite Forall_forall in Hfresh. specialize (Hfresh x Hx). lia.
Qed.

Lemma create_nextOrder (s : App) :
  well_formed s -> ordered s -> JS.trim (new_todo s) <> "" ->
  TodoList.nextOrder (AppView.createOnEnter ENTER_KEY s)
  = (TodoList.nextOrder s + 1)%Z.
Proof.
  intros Hwf Hord Htext.
  destruct (create_appends s Hwf Hord Htext) as (_ & Ho & _).
  now rewrite (nextOrder_orders (AppView.createOnEnter ENTER_KEY s)), Ho, last_last.
Qed.

Lemma typed_items_from (texts : list string) (s : App) :
  well_formed s -> ordered s ->
  items (run (type_and_enter texts) s)
  = items s ++ numbered (TodoList.nextOrder s)
                        (List.filter JS.truthy (List.map JS.trim texts)).
Proof.
  revert s. induction texts as [| text texts IH]; intros s Hwf Hord; simpl.
  - now rewrite app_nil_r.
  - set (s1 := AppView.set_input text s).
    assert (Hwf1 : well_formed s1) by exact Hwf.
    assert (Hord1 : ordered s1) by exact Hord.
    change (fold_left (fun st e => handle e st) (type_and_enter texts)
              (AppView.createOnEnter ENTER_KEY s1))
      with (run (type_and_enter texts) (AppView.createOnEnter ENTER_KEY s1)).
    destruct (JS.truthy (JS.trim text)) eqn:Ht.
    + assert (Htext : JS.trim (new_todo s1) <> "").
      { simpl. intros Hblank. apply truthy_false in Hblank. congruence. }
      destruct (createOnEnter_keeps ENTER_KEY s1 (conj Hwf1 Hord1)) as [Hwf2 Hord2].
      rewrite (IH _ Hwf2 Hord2), (create_items s1 Hwf1 Hord1 Htext),
        (create_nextOrder s1 Hwf1 Hord1 Htext).
      rewrite <- app_assoc. reflexivity.
    + apply truthy_false in Ht.
      rewrite (createOnEnter_blank ENTER_KEY s1 Ht). now rewrite (IH s1 Hwf1 Hord1).
Qed.

(** X8. Texts typed into the new-item field one after the other, each
    followed by Enter, are appended to the store in typing order: blank
    texts are skipped, the others become open items titled with the
    trimmed text and numbered on from [nextOrder()]; from the empty store
    the orders are 1, 2, 3, ... *)
Theorem typed_items_in_order (texts : list string) :
  items (run (type_and_enter texts) init)
  = numbered 1 (List.filter JS.truthy (List.map JS.trim texts))
  /\ (forall s, well_formed s -> ordered s ->
                items (run (type_and_enter texts) s)
                = items s ++ numbered (TodoList.nextOrder s)
                                      (List.filter JS.truthy (List.map JS.trim texts))).
Proof.
  split; [| intros s; apply typed_items_from].
  destruct init_invariant as [Hwf Hord].
  now rewrite (typed_items_from texts init Hwf Hord).
Qed.

Lemma typed_items_in_order_witness :
  items (run (type_and_enter [" D "; "  "; "E"]) three_items)
  = items three_items
    ++ [{| title := "D"; completed := false; order := 4 |};
        {| title := "E"; completed := false; order := 5 |}].
Proof.
  apply (proj2 (typed_items_in_order [" D "; "  "; "E"]) three_items).
  - split.
    + vm_compute. repeat constructor.
    + repeat constructor; simpl; intuition discriminate.
  - unfold ordered. vm_compute. repeat constructor.
Defined.

(** X16. Destroying the item just created gives back the store as it
    was, and with it the value of [nextOrder()]: the order of a destroyed
    last item is handed out again. *)
Theorem create_then_clear_restores (v : TodoView.t) (s : App) :
  well_formed s -> ordered s -> JS.trim (new_todo s) <> "" ->
  TodoView.model v = next_cid s ->
  TodoList.nextOrder (AppView.createOnEnter ENTER_KEY s)
  = (TodoList.nextOrder s + 1)%Z
  /\ models (TodoView.clear v (AppView.createOnEnter ENTER_KEY s)) = models s
  /\ items (TodoView.clear v (AppView.createOnEnter ENTER_KEY s)) = items s
  /\ TodoList.nextOrder (TodoView.clear v (AppView.createOnEnter ENTER_KEY s))
     = TodoList.nextOrder s.
Proof.
  intros Hwf Hord Htext Hv.
  destruct (create_appends s Hwf Hord Htext) as (Hm & _ & _).
  assert (Hfresh : forall x, In x (models s) -> x <> next_cid s).
  { destruct Hwf as [Hfresh _]. rewrite Forall_forall in Hfresh.
    intros x Hx. specialize (Hfresh x Hx). lia. }
  assert (Hmodels : models (TodoView.clear v (AppView.createOnEnter ENTER_KEY s))
                    = models s).
  { unfold TodoView.clear, Model.destroy; simpl. rewrite Hm, Hv, filter_app. simpl.
    rewrite Pos.eqb_refl; simpl. rewrite app_nil_r. apply filter_all.
    intros x Hx. apply negb_true_iff, Pos.eqb_neq. now apply Hfresh. }
  assert (Hitems : items (TodoView.clear v (AppView.createOnEnter ENTER_KEY s))
                   = items s).
  { unfold items. rewrite Hmodels. apply map_ext_in. intros x Hx.
    unfold TodoView.clear, Model.destroy; simpl.
    rewrite (createOnEnter_objs s Htext). apply fn_lookup_insert_ne.
    specialize (Hfresh x Hx). congruence. }
  split; [now apply create_nextOrder |]. split; [exact Hmodels |].
  split; [exact Hitems |].
  now rewrite !nextOrder_orders, !orders_items, Hitems.
Qed.

Lemma create_then_clear_restores_witness :
  TodoList.nextOrder
    (TodoView.clear (TodoView.mk 4 "" false)
       (AppView.createOnEnter ENTER_KEY (AppView.set_input "D" three_items)))
  = 4%Z.
Proof.
  apply (create_then_clear_restores (TodoView.mk 4 "" false)
           (AppView.set_input "D" three_items)).
  - split.
    + vm_compute. repeat constructor.
    + repeat constructor; simpl; intuition discriminate.
  - unfold ordered. vm_compute. repeat constructor.
  - vm_compute. discriminate.
  - reflexivity.
Defined.

(** ** Titles are never empty *)

(** The steps of the handlers, with the attributes they save: a
    [completed] flag, or a title that is not the empty string. *)
Lemma handle_steps_attrs (P : App -> Prop) :
  (forall text s, P s -> P (AppView.set_input text s)) ->
  (forall which s, P s -> P (AppView.createOnEnter which s)) ->
  (forall m b s,
      P s ->
      P (Model.save m
           {| attr_title := None; attr_completed := Some b; attr_order := None |} s)) ->
  (forall m t s,
      t <> "" -> P s ->
      P (Model.save m
           {| attr_title := Some t; attr_completed := None; attr_order := None |} s)) ->
  (forall m s, P s -> P (Model.destroy m s)) ->
  (forall param s, P s -> P (Filters.filter param s)) ->
  forall e s, P s -> P (handle e s).
Proof.
  intros Hinput Hcreate Hflag Htitle Hdestroy Hfilter e s Hs.
  assert (Hclose : forall v, P (snd (TodoView.close v s))).
  { intros v. unfold TodoView.close; simpl.
    destruct (JS.truthy (TodoView.input v)) eqn:Ht; [| now apply Hdestroy].
    apply Htitle; [| exact Hs]. intros Hempty. apply truthy_false in Hempty. congruence. }
  destruct e as [text | which | | checked | v | v | v | v which | v | fragment];
    simpl.
  - now apply Hinput.
  - now apply Hcreate.
  - unfold AppView.clearCompleted. apply (fold_left_keeps P); [| exact Hs].
    intros st x. apply Hdestroy.
  - unfold AppView.toggleAllComplete. apply (fold_left_keeps P); [| exact Hs].
    intros st x. apply Hflag.
  - destruct (live v s); [now apply Hflag | exact Hs].
  - exact Hs.
  - destruct (live v s); [now apply Hdestroy | exact Hs].
  - destruct (live v s); [| exact Hs]. unfold TodoView.updateOnEnter.
    destruct (which =? ENTER_KEY)%Z; [apply Hclose | exact Hs].
  - destruct (live v s); [apply Hclose | exact Hs].
  - now apply Hfilter.
Qed.

Lemma save_titled (m : positive) (attrs : Attrs) (s : App) :
  (forall t, attr_title attrs = Some t -> t <> "") ->
  titled s -> titled (Model.save m attrs s).
Proof.
  unfold titled. intros Hattrs Hs. simpl. rewrite Forall_forall in Hs |- *.
  intros x Hx. destruct (Pos.eq_dec m x) as [<- | Hne].
  - rewrite fn_lookup_insert. unfold Model.set; simpl.
    destruct (attr_title attrs) as [t |]; simpl; [now apply Hattrs | now apply Hs].
  - rewrite fn_lookup_insert_ne by assumption. now apply Hs.
Qed.

Lemma createOnEnter_titled (which : Z) (s : App) :
  titled s -> titled (AppView.createOnEnter which s).
Proof.
  intros Hs. destruct (Z.eq_dec which ENTER_KEY) as [-> | Hkey];
    [| now rewrite createOnEnter_other_key].
  destruct (string_dec (JS.trim (new_todo s)) "") as [Hblank | Htext];
    [now rewrite createOnEnter_blank |].
  unfold titled in *. rewrite (createOnEnter_objs s Htext).
  rewrite (createOnEnter_creates s Htext). unfold TodoList.create.
  rewrite newAttributes_new. simpl. rewrite Forall_forall in Hs |- *.
  intros x Hx. apply (Permutation_in _ (sortBy_perm _ _)) in Hx.
  destruct (Pos.eq_dec (next_cid s) x) as [<- | Hne].
  - now rewrite fn_lookup_insert.
  - rewrite fn_lookup_insert_ne by assumption. apply Hs.
    apply in_app_or in Hx. destruct Hx as [Hx | [Hx | []]]; [exact Hx | contradiction].
Qed.

(** X9. No item with the empty title ever gets into the store: creation
    refuses a blank text, and closing an edit on the empty field destroys
    the item instead of saving it. *)
Theorem titles_never_empty :
  (forall events, titled (run events init))
  /\ (forall e s, titled s -> titled (handle e s)).
Proof.
  assert (Hstep : forall e s, titled s -> titled (handle e s)).
  { apply (handle_steps_attrs titled).
    - intros text s Hs. exact Hs.
    - apply createOnEnter_titled.
    - intros m b s. apply save_titled. discriminate.
    - intros m t s Ht. apply save_titled. intros t' Heq. now injection Heq as <-.
    - intros m s Hs. unfold titled in *. simpl. rewrite Forall_forall in Hs |- *.
      intros x Hx. apply filter_In in Hx. now apply Hs.
    - intros param s Hs. exact Hs. }
  split; [| exact Hstep].
  intros events. unfold run. apply (fold_left_keeps titled).
  - intros st e. apply Hstep.
  - constructor.
Qed.

Lemma titles_never_empty_witness :
  titled three_items /\ titled (handle (BlurEdit blank_edit) three_items).
Proof.
  assert (H : titled three_items).
  { unfold titled. vm_compute. repeat constructor; discriminate. }
  split; [exact H |].
  apply (proj2 titles_never_empty (BlurEdit blank_edit) three_items H).
Defined.

(** ** The statistics *)

Lemma filter_nil_iff {A : Type} (p : A -> bool) (l : list A) :
  List.filter p l = [] <-> (forall x, In x l -> p x = false).
Proof.
  split; [| apply filter_none].
  induction l as [| y l IH]; simpl; intros H x Hx; [destruct Hx |].
  destruct (p y) eqn:Hy; [discriminate |].
  destruct Hx as [<- | Hx]; [exact Hy | now apply IH].
Qed.

Lemma length_zero_nil {A : Type} (l : list A) : (List.length l =? 0)%nat = true <-> l = [].
Proof. rewrite Nat.eqb_eq. destruct l; simpl; split; congruence. Qed.

Lemma remaining_none_iff (s : App) :
  (List.length (TodoList.remaining s) =? 0)%nat = true
  <-> (forall m, In m (models s) -> completed (objs s m) = true).
Proof.
  rewrite length_zero_nil, remaining_filter, filter_nil_iff.
  split; intros H m Hm; specialize (H m Hm); now destruct (completed (objs s m)).
Qed.

Lemma render_todo_list (s : App) (p : Page) :
  todo_list (AppViewPage.render s p) = todo_list p.
Proof. unfold AppViewPage.render. now destruct (negb (TodoList.length s =? 0)%nat). Qed.

Lemma render_idem (s : App) (p : Page) :
  AppViewPage.render s (AppViewPage.render s p) = AppViewPage.render s p.
Proof. unfold AppViewPage.render. now destruct (negb (TodoList.length s =? 0)%nat). Qed.

Lemma render_set_todo_list (s : App) (l : list (positive * Li)) (p : Page) :
  AppViewPage.render s (set_todo_list l p) = set_todo_list l (AppViewPage.render s p).
Proof. unfold AppViewPage.render. now destruct (negb (TodoList.length s =? 0)%nat). Qed.

(** The statistics read the models, their [completed] flags and the
    filter, nothing else. *)
Lemma render_ext (s s' : App) (p : Page) :
  models s' = models s ->
  (forall m, completed (objs s' m) = completed (objs s m)) ->
  filter_value s' = filter_value s ->
  AppViewPage.render s' p = AppViewPage.render s p.
Proof.
  intros Hm Hc Hf.
  assert (Hcompleted : TodoList.completed s' = TodoList.completed s).
  { unfold TodoList.completed, Model.get. rewrite Hm. apply filter_ext. exact Hc. }
  assert (Hremaining : TodoList.remaining s' = TodoList.remaining s).
  { unfold TodoList.remaining. now rewrite Hm, Hcompleted. }
  unfold AppViewPage.render, TodoList.length. now rewrite Hm, Hcompleted, Hremaining, Hf.
Qed.

Lemma render_facts (s : App) (p : Page) :
  main_shown (AppViewPage.render s p) = negb (TodoList.length s =? 0)%nat
  /\ footer_shown (AppViewPage.render s p) = negb (TodoList.length s =? 0)%nat
  /\ (allCheckbox_checked (AppViewPage.render s p) = true
      <-> (forall m, In m (models s) -> completed (objs s m) = true))
  /\ (TodoList.length s <> 0%nat ->
      footer_html (AppViewPage.render s p)
      = Some (List.length (TodoList.completed s), List.length (TodoList.remaining s))
      /\ selected (AppViewPage.render s p)
         = Some (String.append "#/" (JS.or_empty (filter_value s))))
  /\ (TodoList.length s = 0%nat ->
      footer_html (AppViewPage.render s p) = footer_html p
      /\ selected (AppViewPage.render s p) = selected p
      /\ allCheckbox_checked (AppViewPage.render s p) = true).
Proof.
  assert (Hbox : allCheckbox_checked (AppViewPage.render s p)
                 = (List.length (TodoList.remaining s) =? 0)%nat).
  { unfold AppViewPage.render. now destruct (negb (TodoList.length s =? 0)%nat). }
  assert (Hall : TodoList.length s = 0%nat ->
                 (List.length (TodoList.remaining s) =? 0)%nat = true).
  { unfold TodoList.length. intros Hlen. apply remaining_none_iff. intros m Hm.
    destruct (models s); [destruct Hm | discriminate]. }
  split; [| split; [| split; [now rewrite Hbox, remaining_none_iff |]]].
  - unfold AppViewPage.render. now destruct (negb (TodoList.length s =? 0)%nat).
  - unfold AppViewPage.render. now destruct (negb (TodoList.length s =? 0)%nat).
  - rewrite Hbox. unfold AppViewPage.render.
    destruct (TodoList.length s =? 0)%nat eqn:Hlen; simpl.
    + apply Nat.eqb_eq in Hlen. split; [intros Hne; contradiction |].
      intros _. split; [reflexivity |]. split; [reflexivity |]. now apply Hall.
    + apply Nat.eqb_neq in Hlen.
      split; [intros _; split; reflexivity |]. intros Heq. contradiction.
Qed.

(** X12. What [AppView.render()] puts on the page: [#main] and [#footer]
    are shown exactly when the store has an item; the toggle-all box is
    checked exactly when every item is completed, so it is checked on the
    empty store; on a store with items the footer gets the two counts,
    which add up to the size of the store, and the link of the current
    filter is selected; on the empty store the footer is hidden with its
    old content.  The item list is not touched. *)
Theorem render_statistics (s : App) (p : Page) :
  main_shown (AppViewPage.render s p) = negb (TodoList.length s =? 0)%nat
  /\ footer_shown (AppViewPage.render s p) = negb (TodoList.length s =? 0)%nat
  /\ (allCheckbox_checked (AppViewPage.render s p) = true
      <-> (forall m, In m (models s) -> completed (objs s m) = true))
  /\ (TodoList.length s <> 0%nat ->
      exists c r,
        footer_html (AppViewPage.render s p) = Some (c, r)
        /\ c = List.length (TodoList.completed s)
        /\ r = List.length (TodoList.remaining s)
        /\ (c + r = TodoList.length s)%nat
        /\ selected (AppViewPage.render s p)
           = Some (String.append "#/" (JS.or_empty (filter_value s))))
  /\ (TodoList.length s = 0%nat ->
      footer_html (AppViewPage.render s p) = footer_html p
      /\ selected (AppViewPage.render s p) = selected p
      /\ allCheckbox_checked (AppViewPage.render s p) = true)
  /\ todo_list (AppViewPage.render s p) = todo_list p.
Proof.
  destruct (render_facts s p) as (Hmain & Hfooter & Hbox & Hfull & Hempty).
  split; [exact Hmain |]. split; [exact Hfooter |]. split; [exact Hbox |].
  split; [| split; [exact Hempty | apply render_todo_list]].
  intros Hlen. destruct (Hfull Hlen) as [Hhtml Hsel].
  exists (List.length (TodoList.completed s)), (List.length (TodoList.remaining s)).
  repeat split; try assumption.
  rewrite remaining_filter. unfold TodoList.completed, TodoList.length, Model.get.
  apply filter_length_split.
Qed.

Lemma render_statistics_witness :
  footer_html (AppViewPage.render two_completed Wired.blank) = Some (2%nat, 1%nat)
  /\ selected (AppViewPage.render two_completed Wired.blank) = Some "#/".
Proof.
  destruct (proj1 (proj2 (proj2 (proj2 (render_statistics two_completed Wired.blank)))))
    as (c & r & Hhtml & -> & -> & _ & Hsel).
  - discriminate.
  - split; [exact Hhtml | exact Hsel].
Defined.

(** ** The item list follows the store *)

Lemma todo_list_on_view (m : positive) (f : Li -> Li) (p : Page) :
  todo_list (on_view m f p) = List.map (on_row m f) (todo_list p).
Proof. reflexivity. Qed.

Lemma render_li_of (m : positive) (s : App) (li : Li) :
  TodoViewPage.render (TodoViewPage.constructor m) s li = li_of s m.
Proof. reflexivity. Qed.

Lemma li_of_ext (s s' : App) (m : positive) :
  objs s' m = objs s m -> filter_value s' = filter_value s -> li_of s' m = li_of s m.
Proof.
  intros Ho Hf.
  unfold li_of, TodoViewPage.render, TodoViewPage.toggleVisible, TodoView.isHidden,
    Model.get; simpl.
  now rewrite Ho, Hf.
Qed.

Lemma toggleVisible_li_of (s s' : App) (m : positive) :
  objs s' m = objs s m ->
  TodoViewPage.toggleVisible (TodoViewPage.constructor m) s' (li_of s m) = li_of s' m.
Proof.
  intros Ho.
  unfold li_of, TodoViewPage.render, TodoViewPage.toggleVisible, TodoView.isHidden,
    Model.get; simpl.
  now rewrite Ho.
Qed.

Lemma set_unchanged (a : Attributes) (attrs : Attrs) :
  Wired.changes String.eqb (attr_title attrs) (title a) = false ->
  Wired.changes Bool.eqb (attr_completed attrs) (completed a) = false ->
  Wired.changes Z.eqb (attr_order attrs) (order a) = false ->
  Model.set a attrs = a.
Proof.
  unfold Wired.changes, Model.set. destruct a as [t c o]; simpl.
  destruct (attr_title attrs) as [t' |], (attr_completed attrs) as [c' |],
           (attr_order attrs) as [o' |]; simpl; intros Ht Hc Ho;
    repeat match goal with
      | H : negb _ = false |- _ => apply negb_false_iff in H
      | H : String.eqb _ _ = true |- _ => apply String.eqb_eq in H
      | H : Bool.eqb _ _ = true |- _ => apply Bool.eqb_prop in H
      | H : Z.eqb _ _ = true |- _ => apply Z.eqb_eq in H
      end; subst; reflexivity.
Qed.

(** After a save that changed nothing no event fires, and the page is
    still right; after one that changed something the view of the model
    has rendered again and the statistics with it. *)
Lemma save_synced (m : positive) (attrs : Attrs) (s : App) (p : Page) :
  existsb (Pos.eqb m) (models s) = true ->
  synced (s, p) -> synced (Wired.save m attrs (s, p)).
Proof.
  intros Hlive [Hlisted Hrendered]. unfold synced, Wired.save in *. simpl in *.
  set (s' := Model.save m attrs s).
  assert (Hother : forall k, k <> m -> objs s' k = objs s k).
  { intros k Hk. apply save_objs_other. congruence. }
  assert (Hlive' : existsb (Pos.eqb m) (models s') = true) by exact Hlive.
  assert (Hrow : forall k, k <> m -> li_of s' k = li_of s k).
  { intros k Hk. apply li_of_ext; [now apply Hother | reflexivity]. }
  unfold Wired.save_events.
  destruct (Wired.changes String.eqb (attr_title attrs) (title (objs s m))) eqn:Ht,
           (Wired.changes Bool.eqb (attr_completed attrs) (completed (objs s m))) eqn:Hc,
           (Wired.changes Z.eqb (attr_order attrs) (order (objs s m))) eqn:Ho;
    cbn [app orb fire fold_left listeners]; rewrite ?Hlive';
    try (split;
         [ unfold listed, AppViewPage.filterOne;
           repeat (rewrite render_todo_list || rewrite todo_list_on_view);
           rewrite Hlisted, !map_map; apply map_ext_in; intros k Hk;
           unfold on_row; simpl;
           destruct (Pos.eqb_spec k m) as [-> | Hne]; simpl;
           rewrite ?Pos.eqb_refl; simpl;
           [ reflexivity
           | rewrite ?(proj2 (Pos.eqb_neq k m) Hne); f_equal; symmetry; now apply Hrow ]
         | unfold rendered; apply render_idem ]).
  assert (Hsame : forall k, objs s' k = objs s k).
  { intros k. destruct (Pos.eq_dec k m) as [-> | Hk]; [| now apply Hother].
    unfold s'. rewrite save_objs_same. now apply set_unchanged. }
  split.
  - unfold listed. rewrite Hlisted. apply map_ext. intros k. f_equal. symmetry.
    apply li_of_ext; [apply Hsame | reflexivity].
  - unfold rendered. rewrite <- Hrendered at 2. apply render_ext; try reflexivity.
    intros k. now rewrite Hsame.
Qed.

Lemma set_todo_list_same (p : Page) : set_todo_list (todo_list p) p = p.
Proof. now destruct p. Qed.

Lemma filter_rows (f : positive -> Li) (q : positive -> bool) (l : list positive) :
  List.filter (fun row => q (fst row)) (List.map (fun m => (m, f m)) l)
  = List.map (fun m => (m, f m)) (List.filter q l).
Proof.
  induction l as [| x l IH]; simpl; [reflexivity |].
  destruct (q x); simpl; now rewrite IH.
Qed.

(** Destroying a model takes its element off the list. *)
Lemma destroy_synced (m : positive) (s : App) (p : Page) :
  synced (s, p) -> synced (Wired.destroy m (s, p)).
Proof.
  intros [Hlisted Hrendered]. unfold synced, Wired.destroy in *. simpl in *.
  assert (Hlist : todo_list (TodoViewPage.remove (TodoViewPage.constructor m) p)
                  = List.map (fun k => (k, li_of (Model.destroy m s) k))
                      (models (Model.destroy m s))).
  { unfold TodoViewPage.remove; simpl. rewrite Hlisted.
    apply (filter_rows (li_of s) (fun k => negb (Pos.eqb k m))). }
  destruct (existsb (Pos.eqb m) (models s)) eqn:Hin.
  - split.
    + unfold listed. now rewrite render_todo_list.
    + apply render_idem.
  - assert (Hkeep : List.filter (fun k => negb (Pos.eqb k m)) (models s) = models s).
    { apply filter_all. intros k Hk. apply negb_true_iff, Pos.eqb_neq. intros ->.
      apply existsb_eqb_In in Hk. congruence. }
    split; [exact Hlist |].
    unfold rendered, TodoViewPage.remove. rewrite render_set_todo_list. f_equal.
    rewrite <- Hrendered at 2. apply render_ext; [exact Hkeep | reflexivity | reflexivity].
Qed.

(** A created item gets its element at the end of the list. *)
Lemma createOnEnter_synced (which : Z) (s : App) (p : Page) :
  well_formed s -> ordered s ->
  synced (s, p) -> synced (Wired.createOnEnter which (s, p)).
Proof.
  intros Hwf Hord [Hlisted Hrendered]. unfold Wired.createOnEnter. simpl fst.
  destruct (Z.eq_dec which ENTER_KEY) as [-> | Hkey].
  2: { apply Z.eqb_neq in Hkey. rewrite Hkey. simpl. now split. }
  destruct (string_dec (JS.trim (new_todo s)) "") as [Hblank | Htext].
  { rewrite (proj2 (truthy_false _) Hblank). simpl. now split. }
  destruct (JS.truthy (JS.trim (new_todo s))) eqn:Ht;
    [| apply truthy_false in Ht; contradiction].
  simpl.
  destruct (create_appends s Hwf Hord Htext) as (Hm & _ & _).
  rewrite (createOnEnter_creates s Htext) in Hm.
  pose proof (createOnEnter_objs s Htext) as Hobjs.
  rewrite (createOnEnter_creates s Htext) in Hobjs.
  set (s1 := TodoList.create (AppView.newAttributes s) s) in *.
  change (models (AppView.set_input "" s1)) with (models s1) in Hm.
  change (objs (AppView.set_input "" s1)) with (objs s1) in Hobjs.
  unfold synced. cbn [fst snd]. split.
  - cbn [fst snd] in Hlisted. unfold listed in *.
    rewrite render_todo_list. unfold AppViewPage.addOne.
    cbn [todo_list set_todo_list].
    change (models (AppView.set_input "" s1)) with (models s1).
    rewrite Hm, map_app, Hlisted. cbn [List.map]. f_equal.
    apply map_ext_in. intros k Hk. f_equal. symmetry. apply li_of_ext; [| reflexivity].
    change (objs s1 k = objs s k).
    rewrite Hobjs. apply fn_lookup_insert_ne. destruct Hwf as [Hfresh _].
    rewrite Forall_forall in Hfresh. specialize (Hfresh k Hk). lia.
  - unfold rendered. cbn [fst snd].
    change (AppViewPage.render (AppView.set_input "" s1))
      with (AppViewPage.render s1).
    apply render_idem.
Qed.

Lemma filterAll_list (s : App) (l : list positive) (p : Page) :
  todo_list (fold_left (fun page todo => AppViewPage.filterOne todo s page) l p)
  = List.map
      (fun row =>
         if existsb (Pos.eqb (fst row)) l
         then (fst row,
               TodoViewPage.toggleVisible (TodoViewPage.constructor (fst row)) s (snd row))
         else row)
      (todo_list p).
Proof.
  revert p. induction l as [| x l IH]; intros p; simpl.
  - symmetry. apply map_id.
  - rewrite IH. unfold AppViewPage.filterOne. rewrite todo_list_on_view, map_map.
    apply map_ext. intros [k li]. unfold on_row; simpl.
    destruct (Pos.eqb_spec k x) as [-> | Hne]; simpl; [| reflexivity].
    now destruct (existsb (Pos.eqb x) l).
Qed.

(** A route change sets the ['hidden'] class of every element anew. *)
Lemma filter_synced (param : option JS.value) (s : App) (p : Page) :
  listed s p -> synced (Wired.filter param (s, p)).
Proof.
  intros Hlisted. unfold synced, Wired.filter. cbn [fst snd fire fold_left listeners].
  split; [| apply render_idem].
  unfold listed in *. rewrite render_todo_list. unfold AppViewPage.filterAll.
  rewrite filterAll_list, Hlisted, map_map.
  change (models (Filters.filter param s)) with (models s).
  apply map_ext_in. intros k Hk. cbn [fst snd].
  apply existsb_eqb_In in Hk. rewrite Hk.
  now rewrite (toggleVisible_li_of s (Filters.filter param s) k eq_refl).
Qed.

Lemma fold_left_invariant {S A : Type} (P : S -> Prop) (f : S -> A -> S)
      (l : list A) (s : S) :
  (forall st x, In x l -> P st -> P (f st x)) -> P s -> P (fold_left f l s).
Proof.
  revert s. induction l as [| x l IH]; intros s Hstep Hs; simpl; [exact Hs |].
  apply IH.
  - intros st y Hy. apply Hstep. now right.
  - apply Hstep; [now left | exact Hs].
Qed.

Lemma toggleAllComplete_synced (checked : bool) (sp : App * Page) :
  synced sp -> synced (Wired.toggleAllComplete checked sp).
Proof.
  intros Hsp. unfold Wired.toggleAllComplete.
  apply (fold_left_invariant
           (fun st => synced st /\ models (fst st) = models (fst sp))); [| now split].
  intros [s p] x Hx [Hst Hmodels]. cbn [fst] in Hmodels. split; [| exact Hmodels].
  apply save_synced; [| exact Hst]. rewrite Hmodels. now apply existsb_eqb_In.
Qed.

Lemma clearCompleted_synced (sp : App * Page) :
  synced sp -> synced (Wired.clearCompleted sp).
Proof.
  intros Hsp. unfold Wired.clearCompleted.
  apply (fold_left_invariant synced); [| exact Hsp].
  intros [s p] x _. apply destroy_synced.
Qed.

(** ** The handlers with listeners change the store as the plain ones *)

Lemma fold_left_fst {A : Type} (W : App * Page -> A -> App * Page)
      (f : App -> A -> App) (l : list A) (sp : App * Page) :
  (forall st x, fst (W st x) = f (fst st) x) ->
  fst (fold_left W l sp) = fold_left f l (fst sp).
Proof.
  intros Hstep. revert sp. induction l as [| x l IH]; intros sp; simpl; [reflexivity |].
  now rewrite IH, Hstep.
Qed.

Lemma wired_close_fst (v : TodoView.t) (sp : App * Page) :
  fst (Wired.close v sp) = snd (TodoView.close v (fst sp)).
Proof.
  unfold Wired.close, TodoView.close. now destruct (JS.truthy (TodoView.input v)).
Qed.

Lemma wired_handle_fst (e : Event) (sp : App * Page) :
  fst (Wired.handle e sp) = handle e (fst sp).
Proof.
  destruct e as [text | which | | checked | v | v | v | v which | v | fragment];
    simpl; try reflexivity.
  - unfold Wired.createOnEnter, AppView.createOnEnter.
    destruct (negb (which =? ENTER_KEY)%Z
              || negb (JS.truthy (JS.trim (new_todo (fst sp))))); [reflexivity |].
    unfold Wired.create. now rewrite newAttributes_new.
  - unfold Wired.clearCompleted, AppView.clearCompleted.
    now apply fold_left_fst.
  - unfold Wired.toggleAllComplete, AppView.toggleAllComplete.
    now apply fold_left_fst.
  - now destruct (live v (fst sp)).
  - now destruct (live v (fst sp)).
  - destruct (live v (fst sp)); [| reflexivity]. unfold TodoView.updateOnEnter.
    destruct (which =? ENTER_KEY)%Z; [apply wired_close_fst | reflexivity].
  - destruct (live v (fst sp)); [apply wired_close_fst | reflexivity].
Qed.

Lemma wired_run_fst (events : list Event) (sp : App * Page) :
  fst (Wired.run events sp) = run events (fst sp).
Proof.
  unfold Wired.run, run. apply fold_left_fst. intros st e. apply wired_handle_fst.
Qed.

Lemma handle_synced (e : Event) (sp : App * Page) :
  well_formed (fst sp) -> ordered (fst sp) ->
  synced sp -> synced (Wired.handle e sp).
Proof.
  intros Hwf Hord Hsp. destruct sp as [s p]. cbn [fst] in Hwf, Hord.
  destruct e as [text | which | | checked | v | v | v | v which | v | fragment];
    cbn [Wired.handle fst snd].
  - exact Hsp.
  - now apply createOnEnter_synced.
  - now apply clearCompleted_synced.
  - now apply toggleAllComplete_synced.
  - destruct (live v s) eqn:Hlive; [| exact Hsp]. now apply save_synced.
  - exact Hsp.
  - destruct (live v s); [| exact Hsp]. now apply destroy_synced.
  - destruct (live v s) eqn:Hlive; [| exact Hsp].
    destruct (which =? ENTER_KEY)%Z; [| exact Hsp].
    unfold Wired.close. destruct (JS.truthy (TodoView.input v));
      [now apply save_synced | now apply destroy_synced].
  - destruct (live v s) eqn:Hlive; [| exact Hsp].
    unfold Wired.close. destruct (JS.truthy (TodoView.input v));
      [now apply save_synced | now apply destroy_synced].
  - apply filter_synced. apply Hsp.
Qed.

(** ** Start-up with saved items *)

Lemma fresh_cids_from (from : positive) (n : nat) :
  Forall (fun m => (from <= m)%positive) (Collection.fresh_cids from n).
Proof.
  revert from. induction n as [| n IH]; intros from; simpl; constructor; [lia |].
  eapply Forall_impl; [| apply IH]. simpl. intros; lia.
Qed.

Lemma fresh_cids_NoDup (from : positive) (n : nat) :
  List.NoDup (Collection.fresh_cids from n).
Proof.
  revert from. induction n as [| n IH]; intros from; simpl; constructor; [| apply IH].
  intros Hin. pose proof (fresh_cids_from (Pos.succ from) n) as Hge.
  rewrite Forall_forall in Hge. specialize (Hge from Hin). lia.
Qed.

(** Loading the records one by one: the new models follow the old ones
    in the collection, hold the records in their order, and no older
    model object changes. *)
Lemma load_all (saved : list Attributes) (s : App) :
  let s1 := fold_left (fun st record => Collection.load record st) saved s in
  models s1 = models s ++ Collection.fresh_cids (next_cid s) (List.length saved)
  /\ List.map (objs s1) (Collection.fresh_cids (next_cid s) (List.length saved))
     = saved
  /\ (forall m, (m < next_cid s)%positive -> objs s1 m = objs s m)
  /\ Forall (fun m => (m < next_cid s1)%positive)
            (Collection.fresh_cids (next_cid s) (List.length saved))
  /\ (next_cid s <= next_cid s1)%positive.
Proof.
  revert s. induction saved as [| record saved IH]; intros s; simpl.
  - rewrite app_nil_r. repeat split; [constructor | lia].
  - destruct (IH (Collection.load record s)) as (Hm & Ho & Hold & Hlt & Hle).
    simpl in Hm, Ho, Hold, Hlt, Hle.
    split; [| split; [| split; [| split]]].
    + rewrite Hm, <- app_assoc. reflexivity.
    + rewrite Ho. f_equal. rewrite Hold by lia. apply fn_lookup_insert.
    + intros m Hlt'. rewrite Hold by lia. apply fn_lookup_insert_ne. lia.
    + constructor; [lia | exact Hlt].
    + lia.
Qed.

(** Fetching records whose orders ascend: the collection holds them in
    that order, well formed and strictly ascending. *)
Lemma fetch_init (saved : list Attributes) :
  StronglySorted Z.lt (List.map order saved) ->
  models (Collection.fetch saved init)
  = Collection.fresh_cids 1 (List.length saved)
  /\ items (Collection.fetch saved init) = saved
  /\ well_formed (Collection.fetch saved init)
  /\ ordered (Collection.fetch saved init).
Proof.
  intros Hsorted. unfold Collection.fetch.
  destruct (load_all saved init) as (Hm & Ho & _ & Hlt & _).
  set (s1 := fold_left (fun st record => Collection.load record st) saved init) in *.
  simpl in Hm, Ho, Hlt.
  assert (Hid : Underscore.sortBy (fun todo => order (objs s1 todo)) (models s1)
                = Collection.fresh_cids 1 (List.length saved)).
  { rewrite Hm. apply sortBy_sorted.
    rewrite <- (map_map (objs s1) order), Ho.
    apply StronglySorted_Sorted.
    apply (StronglySorted_weaken Z.lt Z.le); [intros; lia | exact Hsorted]. }
  unfold items, well_formed, ordered, orders. simpl. rewrite Hid.
  split; [reflexivity |]. split; [exact Ho |]. split; [split |].
  - exact Hlt.
  - apply fresh_cids_NoDup.
  - now rewrite <- (map_map (objs s1) order), Ho.
Qed.

Lemma fire_adds (l : list positive) (s : App) (p : Page) :
  todo_list (fire (List.map Add l) s p)
  = todo_list p ++ List.map (fun m => (m, li_of s m)) l.
Proof.
  unfold fire. revert p. induction l as [| m l IH]; intros p; simpl.
  - now rewrite app_nil_r.
  - rewrite IH, render_todo_list. unfold AppViewPage.addOne; simpl.
    now rewrite <- app_assoc.
Qed.

Lemma addAll_list (s : App) (p : Page) :
  todo_list (AppViewPage.addAll s p)
  = List.map (fun m => (m, li_of s m)) (models s).
Proof.
  unfold AppViewPage.addAll.
  assert (H : forall l q,
             todo_list (fold_left (fun page model => AppViewPage.addOne model s page) l q)
             = todo_list q ++ List.map (fun m => (m, li_of s m)) l).
  { induction l as [| x l IH]; intros q; simpl; [now rewrite app_nil_r |].
    rewrite IH. unfold AppViewPage.addOne; simpl. now rewrite <- app_assoc. }
  now rewrite H.
Qed.

Lemma shown_listed (s : App) (p : Page) :
  listed s p ->
  shown p
  = List.filter
      (fun m => negb (TodoView.isHidden (TodoViewPage.constructor m) s)) (models s).
Proof.
  intros Hlisted. unfold shown. rewrite Hlisted.
  induction (models s) as [| x l IH]; simpl; [reflexivity |].
  destruct (TodoView.isHidden (TodoViewPage.constructor x) s); simpl; now rewrite IH.
Qed.

(** Whichever way the loaded models are announced, the list then holds
    them all. *)
Lemma fetch_listed (reset : bool) (saved : list Attributes) :
  StronglySorted Z.lt (List.map order saved) ->
  listed (fst (Wired.fetch reset saved (init, Wired.blank)))
         (snd (Wired.fetch reset saved (init, Wired.blank))).
Proof.
  intros Hsorted. destruct (fetch_init saved Hsorted) as (Hm & _).
  unfold Wired.fetch, listed. cbn [fst snd]. destruct reset.
  - cbn [fire fold_left listeners]. rewrite render_todo_list. apply addAll_list.
  - rewrite fire_adds, Hm. reflexivity.
Qed.

(** After start-up, whatever the user does, the store is well formed and
    ascending and the page shows it. *)
Lemma run_synced (reset : bool) (saved : list Attributes) (param : JS.value)
      (events : list Event) :
  StronglySorted Z.lt (List.map order saved) ->
  (well_formed (fst (Wired.run events (Wired.boot reset saved param)))
   /\ ordered (fst (Wired.run events (Wired.boot reset saved param))))
  /\ synced (Wired.run events (Wired.boot reset saved param)).
Proof.
  intros Hsorted. unfold Wired.run.
  apply (fold_left_invariant
           (fun st => (well_formed (fst st) /\ ordered (fst st)) /\ synced st)).
  - intros st e _ [Hinv Hsp]. split.
    + rewrite wired_handle_fst. now apply handle_keeps.
    + apply handle_synced; [apply Hinv | apply Hinv | exact Hsp].
  - destruct (fetch_init saved Hsorted) as (_ & _ & Hwf & Hord).
    split; [split; [exact Hwf | exact Hord] |].
    unfold Wired.boot.
    destruct (Wired.fetch reset saved (init, Wired.blank)) as [s0 p0] eqn:Hfetch.
    apply filter_synced.
    pose proof (fetch_listed reset saved Hsorted) as Hlisted.
    now rewrite Hfetch in Hlisted.
Qed.

Lemma wired_boot_run_fst (reset : bool) (saved : list Attributes) (param : JS.value)
      (events : list Event) :
  fst (Wired.run events (Wired.boot reset saved param))
  = run (Route param :: events) (Collection.fetch saved init).
Proof. now rewrite wired_run_fst. Qed.

(** ** The page after any run *)

(** X13. The listeners never change what the handlers do to the store,
    and they keep [#todo-list] in step with it.  Start-up fetches the
    saved items, kept in ascending order as the application leaves
    them, and routes the fragment; after that and any events, the list
    holds one element per item of the store, in store order, each
    showing the current attributes of its item, with the ['completed']
    class exactly when the item is completed and the ['hidden'] class
    exactly when [isHidden] holds; this is the list [addAll()] would
    build from scratch.  It is so whether the loaded models are
    announced by ['reset'] or by ['add']. *)
Theorem page_lists_store (reset : bool) (saved : list Attributes) (param : JS.value)
        (events : list Event) :
  StronglySorted Z.lt (List.map order saved) ->
  fst (Wired.run events (Wired.boot reset saved param))
  = run (Route param :: events) (Collection.fetch saved init)
  /\ todo_list (snd (Wired.run events (Wired.boot reset saved param)))
     = List.map
         (fun m =>
            (m, {| html :=
                     Some (objs (run (Route param :: events)
                                   (Collection.fetch saved init)) m);
                   class_completed :=
                     completed (objs (run (Route param :: events)
                                        (Collection.fetch saved init)) m);
                   class_hidden :=
                     TodoView.isHidden (TodoViewPage.constructor m)
                       (run (Route param :: events)
                          (Collection.fetch saved init)) |}))
         (models (run (Route param :: events) (Collection.fetch saved init)))
  /\ todo_list (snd (Wired.run events (Wired.boot reset saved param)))
     = todo_list
         (AppViewPage.addAll (fst (Wired.run events (Wired.boot reset saved param)))
            (snd (Wired.run events (Wired.boot reset saved param)))).
Proof.
  intros Hsorted.
  pose proof (wired_boot_run_fst reset saved param events) as Hfst.
  destruct (run_synced reset saved param events Hsorted) as [_ [Hlisted _]].
  split; [exact Hfst |]. split.
  - rewrite <- Hfst. exact Hlisted.
  - now rewrite addAll_list.
Qed.

Lemma page_lists_store_witness :
  todo_list
    (snd (Wired.run [ClickToggle (TodoView.mk 2 "b" false)]
            (Wired.boot false
               [{| title := "a"; completed := true; order := 1 |};
                {| title := "b"; completed := false; order := 3 |}]
               (JS.Str "active"))))
  = [(1%positive,
      {| html := Some {| title := "a"; completed := true; order := 1 |};
         class_completed := true; class_hidden := true |});
     (2%positive,
      {| html := Some {| title := "b"; completed := true; order := 3 |};
         class_completed := true; class_hidden := true |})].
Proof.
  assert (Hsorted : StronglySorted Z.lt
            (List.map order
               [{| title := "a"; completed := true; order := 1 |};
                {| title := "b"; completed := false; order := 3 |}])).
  { simpl. repeat constructor. }
  rewrite (proj1 (proj2 (page_lists_store false _ (JS.Str "active")
                            [ClickToggle (TodoView.mk 2 "b" false)] Hsorted))).
  reflexivity.
Defined.

(** X14. After such a start-up and any events, the elements without
    the ['hidden'] class are, in store order, those of [remaining()]
    when the filter is ['active'], those of [completed()] when it is
    ['completed'], and all of them for any other filter value, [null]
    included. *)
Theorem shown_follows_filter (reset : bool) (saved : list Attributes)
        (param : JS.value) (events : list Event) :
  StronglySorted Z.lt (List.map order saved) ->
  shown (snd (Wired.run events (Wired.boot reset saved param)))
  = if JS.strict_eq
         (filter_value (run (Route param :: events) (Collection.fetch saved init)))
         "active"
    then TodoList.remaining (run (Route param :: events) (Collection.fetch saved init))
    else if JS.strict_eq
              (filter_value (run (Route param :: events)
                               (Collection.fetch saved init)))
              "completed"
         then TodoList.completed
                (run (Route param :: events) (Collection.fetch saved init))
         else models (run (Route param :: events) (Collection.fetch saved init)).
Proof.
  intros Hsorted.
  destruct (run_synced reset saved param events Hsorted) as [_ [Hlisted _]].
  rewrite (wired_boot_run_fst reset saved param events) in Hlisted.
  rewrite (shown_listed _ _ Hlisted), remaining_filter.
  set (s := run (Route param :: events) (Collection.fetch saved init)).
  unfold TodoList.completed, TodoView.isHidden, Model.get. simpl.
  destruct (JS.strict_eq (filter_value s) "active") eqn:Ha.
  - apply strict_eq_iff in Ha. rewrite Ha. simpl. apply filter_ext. intros m.
    now destruct (completed (objs s m)).
  - destruct (JS.strict_eq (filter_value s) "completed") eqn:Hc.
    + apply filter_ext. intros m. now destruct (completed (objs s m)).
    + apply filter_all. intros m _. now destruct (completed (objs s m)).
Qed.

Lemma shown_follows_filter_witness :
  shown
    (snd (Wired.run [ClickToggle (TodoView.mk 2 "b" false)]
            (Wired.boot true
               [{| title := "a"; completed := true; order := 1 |};
                {| title := "b"; completed := false; order := 3 |};
                {| title := "c"; completed := false; order := 4 |}]
               (JS.Str "active"))))
  = [3%positive].
Proof.
  assert (Hsorted : StronglySorted Z.lt
            (List.map order
               [{| title := "a"; completed := true; order := 1 |};
                {| title := "b"; completed := false; order := 3 |};
                {| title := "c"; completed := false; order := 4 |}])).
  { simpl. repeat constructor. }
  rewrite (shown_follows_filter true _ (JS.Str "active")
             [ClickToggle (TodoView.mk 2 "b" false)] Hsorted).
  reflexivity.
Defined.

(** X15. After such a start-up and any events the statistics on the
    page are those of the store: [#main] and [#footer] are shown exactly
    when there is an item, and while there is an item the footer shows
    the numbers of completed and of remaining items and the links are
    selected by the current filter. *)
Theorem statistics_up_to_date (reset : bool) (saved : list Attributes)
        (param : JS.value) (events : list Event) :
  StronglySorted Z.lt (List.map order saved) ->
  main_shown (snd (Wired.run events (Wired.boot reset saved param)))
  = negb (TodoList.length
            (run (Route param :: events) (Collection.fetch saved init)) =? 0)%nat
  /\ footer_shown (snd (Wired.run events (Wired.boot reset saved param)))
     = negb (TodoList.length
               (run (Route param :: events) (Collection.fetch saved init)) =? 0)%nat
  /\ (TodoList.length
        (run (Route param :: events) (Collection.fetch saved init)) <> 0%nat ->
      footer_html (snd (Wired.run events (Wired.boot reset saved param)))
      = Some (List.length
                (TodoList.completed
                   (run (Route param :: events) (Collection.fetch saved init))),
              List.length
                (TodoList.remaining
                   (run (Route param :: events) (Collection.fetch saved init))))
      /\ selected (snd (Wired.run events (Wired.boot reset saved param)))
         = Some (String.append "#/"
                   (JS.or_empty
                      (filter_value
                         (run (Route param :: events)
                            (Collection.fetch saved init)))))).
Proof.
  intros Hsorted.
  pose proof (wired_boot_run_fst reset saved param events) as Hfst.
  destruct (run_synced reset saved param events Hsorted) as [_ [_ Hrendered]].
  unfold rendered in Hrendered. rewrite Hfst in Hrendered. rewrite <- Hrendered.
  destruct (render_facts (run (Route param :: events) (Collection.fetch saved init))
              (snd (Wired.run events (Wired.boot reset saved param))))
    as (Hmain & Hfooter & _ & Hfull & _).
  split; [exact Hmain |]. split; [exact Hfooter | exact Hfull].
Qed.

Lemma statistics_up_to_date_witness :
  footer_html
    (snd (Wired.run [TypeNewTodo "c"; KeypressNewTodo 13]
            (Wired.boot false
               [{| title := "a"; completed := true; order := 1 |};
                {| title := "b"; completed := false; order := 3 |}]
               JS.Null)))
  = Some (1%nat, 2%nat).
Proof.
  assert (Hsorted : StronglySorted Z.lt
            (List.map order
               [{| title := "a"; completed := true; order := 1 |};
                {| title := "b"; completed := false; order := 3 |}])).
  { simpl. repeat constructor. }
  apply (proj2 (proj2 (statistics_up_to_date false _ JS.Null
                         [TypeNewTodo "c"; KeypressNewTodo 13] Hsorted))).
  vm_compute. discriminate.
Defined.

(** X7. Rendering after [toggleAllComplete]: on a store with items the
    toggle-all box comes out as the handler read it, and the footer
    counts all items as completed, or all as remaining; on the empty
    store the box comes out checked whatever was read. *)
Theorem toggleAllComplete_then_render (checked : bool) (s : App) (p : Page) :
  (TodoList.length s <> 0%nat ->
   allCheckbox_checked (AppViewPage.render (AppView.toggleAllComplete checked s) p)
   = checked
   /\ footer_html (AppViewPage.render (AppView.toggleAllComplete checked s) p)
      = Some (if checked then (TodoList.length s, 0%nat)
              else (0%nat, TodoList.length s)))
  /\ (TodoList.length s = 0%nat ->
      allCheckbox_checked (AppViewPage.render (AppView.toggleAllComplete checked s) p)
      = true).
Proof.
  set (s' := AppView.toggleAllComplete checked s).
  assert (Hmodels : models s' = models s) by apply toggleAllComplete_models.
  assert (Hcompleted : TodoList.completed s' = if checked then models s else []).
  { unfold TodoList.completed, Model.get. rewrite Hmodels. destruct checked.
    - apply filter_all. intros m Hm. now apply toggleAllComplete_completed.
    - apply filter_none. intros m Hm. now apply toggleAllComplete_completed. }
  assert (Hremaining : TodoList.remaining s' = if checked then [] else models s).
  { rewrite remaining_filter, Hmodels. destruct checked.
    - apply filter_none. intros m Hm. unfold s'.
      now rewrite toggleAllComplete_completed.
    - apply filter_all. intros m Hm. unfold s'.
      now rewrite toggleAllComplete_completed. }
  unfold AppViewPage.render, TodoList.length. rewrite Hcompleted, Hremaining, Hmodels.
  split.
  - intros Hlen. apply Nat.eqb_neq in Hlen. rewrite Hlen. simpl.
    destruct checked; simpl; [split; reflexivity |]. now rewrite Hlen.
  - intros Hlen. rewrite Hlen. simpl.
    destruct (models s); [now destruct checked | discriminate].
Qed.

Lemma toggleAllComplete_then_render_witness :
  allCheckbox_checked
    (AppViewPage.render (AppView.toggleAllComplete false two_completed) Wired.blank)
  = false.
Proof.
  apply (proj1 (toggleAllComplete_then_render false two_completed Wired.blank)).
  discriminate.
Defined.
